(** * A shallow embedding of the engineering calculator

    The development follows the TypeScript sources:
    - [src/Calculator.tsx]: the calculator component (display, staged operand,
      pending operator, memory register, local history);
    - [convex/calculator.ts] and the schema: the two Convex functions
      [saveCalculation] and [getHistory] over the table ["calculations"].

    JavaScript numbers are IEEE-754 binary64 values; they are modelled by
    Rocq's primitive floats, which are the same format with a single NaN.
    [parseFloat], [String(number)], [Math.floor] and [%] are defined exactly,
    through the integer significand and exponent of a float. *)

From Stdlib Require Import ZArith List String Ascii Bool Lia.
From Stdlib Require Import PrimFloat FloatOps SpecFloat FloatAxioms.
From Stdlib Require Import DecimalString DecimalPos.
Import ListNotations.

Local Open Scope string_scope.
Local Open Scope Z_scope.

(* ================================================================= *)
(** * JavaScript numbers *)

Module JS.

Definition number := float.

(** [ToBoolean] on a number: [+0], [-0] and [NaN] are falsy. *)
Definition truthy (x : number) : bool :=
  negb (is_zero x || is_nan x).

(** [a || b] on numbers. *)
Definition or_else (a b : number) : number :=
  if truthy a then a else b.

(** [a === b] and [a !== b] on numbers: IEEE equality, so [NaN !== NaN]
    and [-0 === 0]. *)
Definition strict_eq (a b : number) : bool := PrimFloat.eqb a b.
Definition strict_neq (a b : number) : bool := negb (PrimFloat.eqb a b).

(** ** Exact rounding of a decimal to the nearest double *)

(** The double nearest to [(-1)^neg * m * 10^e10], ties to even. *)
Definition round_decimal (neg : bool) (m : positive) (e10 : Z) : number :=
  SF2Prim
    match e10 with
    | Zneg k =>
        SFdiv prec emax (S754_finite neg m 0)
                        (S754_finite false (Pos.pow 10 k) 0)
    | _ => binary_round prec emax neg (Z.to_pos (Zpos m * 10 ^ e10)) 0
    end.

(** ** parseFloat *)

Definition is_digit (c : ascii) : bool :=
  let n := N_of_ascii c in (48 <=? n)%N && (n <=? 57)%N.

Definition digit_value (c : ascii) : Z := Z.of_N (N_of_ascii c) - 48.

(** The ASCII members of [StrWhiteSpaceChar]: TAB, LF, VT, FF, CR, SP. *)
Definition is_space (c : ascii) : bool :=
  let n := N_of_ascii c in
  ((9 <=? n)%N && (n <=? 13)%N) || (n =? 32)%N.

Fixpoint skip_spaces (s : string) : string :=
  match s with
  | String c r => if is_space c then skip_spaces r else s
  | EmptyString => s
  end.

(** Longest run of decimal digits at the head of [s]: its value read after
    the accumulator [acc], how many digits it has, and the rest. *)
Fixpoint take_digits (s : string) (acc : Z) (cnt : Z) : Z * Z * string :=
  match s with
  | String c r =>
      if is_digit c then take_digits r (10 * acc + digit_value c) (cnt + 1)
      else (acc, cnt, s)
  | EmptyString => (acc, cnt, s)
  end.

(** [ExponentPart]: [e] or [E], an optional sign and at least one digit;
    when it is not complete nothing is consumed and the exponent is 0. *)
Definition take_exponent (s : string) : Z :=
  match s with
  | String c r =>
      if (c =? "e")%char || (c =? "E")%char then
        match r with
        | String "+" r' =>
            let '(v, n, _) := take_digits r' 0 0 in if n =? 0 then 0 else v
        | String "-" r' =>
            let '(v, n, _) := take_digits r' 0 0 in if n =? 0 then 0 else - v
        | _ =>
            let '(v, n, _) := take_digits r 0 0 in if n =? 0 then 0 else v
        end
      else 0
  | EmptyString => 0
  end.

Definition signed_value (neg : bool) (m e10 : Z) : number :=
  match m with
  | Zpos p => round_decimal neg p e10
  | _ => if neg then neg_zero else zero
  end.

(** [StrUnsignedDecimalLiteral] without the [Infinity] alternative. *)
Definition parse_unsigned (neg : bool) (s : string) : number :=
  let '(ip, ni, r1) := take_digits s 0 0 in
  match r1 with
  | String "." r2 =>
      let '(m, nf, r3) := take_digits r2 ip 0 in
      if (ni =? 0) && (nf =? 0) then nan
      else signed_value neg m (take_exponent r3 - nf)
  | _ =>
      if ni =? 0 then nan else signed_value neg ip (take_exponent r1)
  end.

Definition parse_signless (neg : bool) (s : string) : number :=
  if prefix "Infinity" s then (if neg then neg_infinity else infinity)
  else parse_unsigned neg s.

Definition parseFloat (s : string) : number :=
  match skip_spaces s with
  | String "+" r => parse_signless false r
  | String "-" r => parse_signless true r
  | t => parse_signless false t
  end.

(** ** String(number): ECMAScript's Number::toString in radix 10 *)

(** The exact value [m * 2^e] of a positive finite double as a fraction. *)
Definition fraction (m : positive) (e : Z) : Z * Z :=
  match e with
  | Zneg k => (Zpos m, Zpos (Pos.pow 2 k))
  | _ => (Zpos m * 2 ^ e, 1)
  end.

Definition dec_digits (p : positive) : string :=
  NilEmpty.string_of_uint (Pos.to_uint p).

Definition dec_of_Z (z : Z) : string :=
  NilEmpty.string_of_uint (N.to_uint (Z.to_N z)).

(** For [num/den < 1]: the [n <= 0] with [10^(n-1) <= num/den < 10^n]. *)
Fixpoint small_position (fuel : nat) (num den : Z) : Z :=
  match fuel with
  | O => 0
  | S f =>
      if den <=? 10 * num then 0 else small_position f (10 * num) den - 1
  end.

(** The [n] with [10^(n-1) <= num/den < 10^n]. *)
Definition position (num den : Z) : Z :=
  match num / den with
  | Zpos p => Z.of_nat (length (dec_digits p))
  | _ => small_position 400 num den
  end.

(** [num/den] scaled by [10^(-q)]: floor, and the remainder over its
    divisor. *)
Definition scaled (num den q : Z) : Z * Z * Z :=
  let '(a, b) :=
    match q with
    | Zneg k => (num * Zpos (Pos.pow 10 k), den)
    | _ => (num, den * 10 ^ q)
    end in
  (a / b, a mod b, b).

(** Does the decimal [s * 10^q] denote the double [x]? *)
Definition denotes (x : number) (s q : Z) : bool :=
  match s with
  | Zpos p => PrimFloat.Leibniz.eqb (round_decimal false p q) x
  | _ => false
  end.

(** The digits [s] and exponent [q], with [s] of at most [k] digits, such
    that [s * 10^q] denotes [x]; when two do, the one nearer to [x], and
    the even one when they are equally near. *)
Definition candidate (x : number) (num den n k : Z) : option (Z * Z) :=
  let q := n - k in
  let '(lo, r, b) := scaled num den q in
  let hi := lo + 1 in
  match denotes x lo q, denotes x hi q with
  | true, true =>
      match 2 * r ?= b with
      | Lt => Some (lo, q)
      | Gt => Some (hi, q)
      | Eq => Some (if Z.even lo then lo else hi, q)
      end
  | true, false => Some (lo, q)
  | false, true => Some (hi, q)
  | false, false => None
  end.

(** The least [k] for which a candidate exists; 17 digits always suffice. *)
Fixpoint shortest_from (fuel : nat) (x : number) (num den n k : Z) : Z * Z :=
  match fuel with
  | O => (fst (fst (scaled num den (n - k))), n - k)
  | S f =>
      match candidate x num den n k with
      | Some sq => sq
      | None => shortest_from f x num den n (k + 1)
      end
  end.

(** Drop trailing zeros of the digits (only [10^k] can have some). *)
Fixpoint strip_zeros (fuel : nat) (s q : Z) : Z * Z :=
  match fuel with
  | O => (s, q)
  | S f => if s mod 10 =? 0 then strip_zeros f (s / 10) (q + 1) else (s, q)
  end.

Fixpoint zeros (n : nat) : string :=
  match n with
  | O => ""
  | S n' => String "0" (zeros n')
  end.

(** Steps 6 to 10 of Number::toString: the layout of the digits [ds], with
    the decimal point after the first [n] digits. *)
Definition layout (ds : string) (n : Z) : string :=
  let k := Z.of_nat (length ds) in
  if (k <=? n) && (n <=? 21) then
    ds ++ zeros (Z.to_nat (n - k))
  else if (0 <? n) && (n <=? 21) then
    substring 0 (Z.to_nat n) ds ++ "." ++
    substring (Z.to_nat n) (Z.to_nat (k - n)) ds
  else if (-6 <? n) && (n <=? 0) then
    "0." ++ zeros (Z.to_nat (- n)) ++ ds
  else
    let e := n - 1 in
    let tail := "e" ++ (if e <? 0 then "-" else "+") ++ dec_of_Z (Z.abs e) in
    if k =? 1 then ds ++ tail
    else substring 0 1 ds ++ "." ++
         substring 1 (Z.to_nat (k - 1)) ds ++ tail.

(** The string of a positive finite double [x = m * 2^e]. *)
Definition finite_string (x : number) (m : positive) (e : Z) : string :=
  let '(num, den) := fraction m e in
  let n := position num den in
  let '(s, q) := shortest_from 17 x num den n 1 in
  let '(s', q') := strip_zeros 20 s q in
  let ds := dec_digits (Z.to_pos s') in
  layout ds (q' + Z.of_nat (length ds)).

Definition Number_toString (x : number) : string :=
  match Prim2SF x with
  | S754_nan => "NaN"
  | S754_zero _ => "0"
  | S754_infinity s => if s then "-Infinity" else "Infinity"
  | S754_finite s m e =>
      (if s then "-" else "") ++ finite_string (abs x) m e
  end.

(** ** Math.floor, the remainder operator and the constants *)

Definition Math_floor (x : number) : number :=
  match Prim2SF x with
  | S754_finite s m (Zneg k) =>
      match (if s then Zneg m else Zpos m) / Zpos (Pos.pow 2 k) with
      | Z0 => zero
      | q => SF2Prim (binary_normalize prec emax q 0 false)
      end
  | _ => x
  end.

(** [x % y]: the remainder of the truncating division, exact, with the sign
    of the dividend. *)
Definition rem (x y : number) : number :=
  match Prim2SF x, Prim2SF y with
  | S754_nan, _ | _, S754_nan => nan
  | S754_infinity _, _ => nan
  | _, S754_zero _ => nan
  | S754_zero _, _ => x
  | S754_finite _ _ _, S754_infinity _ => x
  | S754_finite sx mx ex, S754_finite _ my ey =>
      let e := Z.min ex ey in
      let r := (Zpos mx * 2 ^ (ex - e)) mod (Zpos my * 2 ^ (ey - e)) in
      SF2Prim (binary_normalize prec emax (if sx then - r else r) e sx)
  end.

Definition Math_PI : number := 0x1.921fb54442d18p+1%float.
Definition Math_E : number := 0x1.5bf0a8b145769p+1%float.

(** ** Strings *)

(** [s.indexOf(".") === -1] *)
Fixpoint no_dot (s : string) : bool :=
  match s with
  | EmptyString => true
  | String c r => if (c =? ".")%char then false else no_dot r
  end.

(** [s.slice(0, -1)] *)
Fixpoint slice_0_m1 (s : string) : string :=
  match s with
  | EmptyString => EmptyString
  | String _ EmptyString => EmptyString
  | String c r => String c (slice_0_m1 r)
  end.

(** [s || t] on strings: the empty string is falsy. *)
Definition str_or_else (s t : string) : string :=
  match s with
  | EmptyString => t
  | _ => s
  end.

(** [ToBoolean] of a [string | null]. *)
Definition truthy_str (o : option string) : bool :=
  match o with
  | Some (String _ _) => true
  | _ => false
  end.

(** The integer a run of digits spells after the accumulator [acc]. *)
Fixpoint digits_of_string (s : string) (acc : Z) : Z :=
  match s with
  | String c r => digits_of_string r (10 * acc + digit_value c)
  | EmptyString => acc
  end.

(** ** Integers as numbers *)

(** The double nearest to the integer [z]; it is [z] itself when
    [|z| <= 2^53]. *)
Definition number_of_Z (z : Z) : number :=
  SF2Prim (binary_normalize prec emax z 0 false).



(** ** Shapes of display strings *)

Fixpoint all_digits (s : string) : bool :=
  match s with
  | EmptyString => true
  | String c r => is_digit c && all_digits r
  end.

(** Digits with at most one decimal point among them. *)
Fixpoint digits_one_point (s : string) : bool :=
  match s with
  | EmptyString => true
  | String c r =>
      if (c =? ".")%char then all_digits r
      else is_digit c && digits_one_point r
  end.

Definition starts_with_digit (s : string) : bool :=
  match s with
  | String c _ => is_digit c
  | EmptyString => false
  end.

(** A string typed on the digit and point buttons: it starts with a digit
    and has at most one point. *)
Definition typed (s : string) : Prop :=
  starts_with_digit s = true /\ digits_one_point s = true.

(** A decimal numeral: an optional leading minus, then digits, the first
    one a digit, with at most one decimal point. *)
Definition decimal_numeral (s : string) : bool :=
  match s with
  | String "-" r => starts_with_digit r && digits_one_point r
  | _ => starts_with_digit s && digits_one_point s
  end.

(** The characters of the strings of numbers: digits, the point, the signs,
    the exponent mark, and the letters of ["Infinity"] and ["NaN"]. *)
Definition number_char (c : ascii) : bool :=
  is_digit c ||
  existsb (Ascii.eqb c)
    ["."; "-"; "+"; "e"; "I"; "n"; "f"; "i"; "t"; "y"; "N"; "a"]%char.

Fixpoint number_chars (s : string) : bool :=
  match s with
  | EmptyString => true
  | String c r => number_char c && number_chars r
  end.

(** A string that is not empty and made of those characters. *)
Definition number_string (s : string) : bool :=
  match s with
  | EmptyString => false
  | _ => number_chars s
  end.

(** How many decimal points a string has. *)
Fixpoint count_points (s : string) : nat :=
  match s with
  | EmptyString => O
  | String c r => if (c =? ".")%char then S (count_points r) else count_points r
  end.

Definition is_sign (c : ascii) : bool := (c =? "-")%char || (c =? "+")%char.

Fixpoint no_signs (s : string) : bool :=
  match s with
  | EmptyString => true
  | String c r => negb (is_sign c) && no_signs r
  end.

(** Every sign of [s] comes right after an [e]; [prev] is the character
    before [s]. *)
Fixpoint signs_follow (prev : ascii) (s : string) : bool :=
  match s with
  | EmptyString => true
  | String c r =>
      (negb (is_sign c) || (prev =? "e")%char) && signs_follow c r
  end.

(** A minus sign is the first character or comes right after an [e], and a
    plus sign comes right after an [e]. *)
Definition signs_placed (s : string) : bool :=
  match s with
  | EmptyString => true
  | String c r => negb (c =? "+")%char && signs_follow c r
  end.

End JS.

(* ================================================================= *)
(** * The calculator component, [src/Calculator.tsx] *)

Module Calculator.
Import JS.

(** What the component takes from its JavaScript engine and ECMAScript
    leaves to the implementation: the approximated [Math] functions, and how
    many nested calls fit on the stack before a [RangeError]. *)
Record Host := {
  Math_pow : number -> number -> number;
  Math_sin : number -> number;
  Math_cos : number -> number;
  Math_tan : number -> number;
  Math_log10 : number -> number;
  Math_log : number -> number;
  stack_depth : nat
}.

Inductive AngleMode := deg | rad.

Record CalculationHistory := {
  expression : string;
  result : string;
  timestamp : Z
}.

(** The [useState] cells of the component. *)
Record State := {
  display : string;
  previousValue : option number;
  operation : option string;
  waitingForOperand : bool;
  memory : number;
  history : list CalculationHistory;
  showHistory : bool;
  angleMode : AngleMode
}.

Definition initial : State :=
  {| display := "0"; previousValue := None; operation := None;
     waitingForOperand := false; memory := zero; history := [];
     showHistory := false; angleMode := deg |}.

(** What a handler does besides setting state: the [saveCalculation]
    mutation, a toast, or an exception that leaves the handler. *)
Inductive Effect :=
| SaveCalculation (expression result : string)
| ToastSuccess (message : string)
| Uncaught (error : string).

(** ** The setters *)

Definition setDisplay (v : string) (s : State) : State :=
  {| display := v; previousValue := previousValue s;
     operation := operation s; waitingForOperand := waitingForOperand s;
     memory := memory s; history := history s;
     showHistory := showHistory s; angleMode := angleMode s |}.

Definition setPreviousValue (v : option number) (s : State) : State :=
  {| display := display s; previousValue := v;
     operation := operation s; waitingForOperand := waitingForOperand s;
     memory := memory s; history := history s;
     showHistory := showHistory s; angleMode := angleMode s |}.

Definition setOperation (v : option string) (s : State) : State :=
  {| display := display s; previousValue := previousValue s;
     operation := v; waitingForOperand := waitingForOperand s;
     memory := memory s; history := history s;
     showHistory := showHistory s; angleMode := angleMode s |}.

Definition setWaitingForOperand (v : bool) (s : State) : State :=
  {| display := display s; previousValue := previousValue s;
     operation := operation s; waitingForOperand := v;
     memory := memory s; history := history s;
     showHistory := showHistory s; angleMode := angleMode s |}.

Definition setMemory (v : number) (s : State) : State :=
  {| display := display s; previousValue := previousValue s;
     operation := operation s; waitingForOperand := waitingForOperand s;
     memory := v; history := history s;
     showHistory := showHistory s; angleMode := angleMode s |}.

(** [setHistory] is called with an updater function of the previous list. *)
Definition setHistory (f : list CalculationHistory -> list CalculationHistory)
  (s : State) : State :=
  {| display := display s; previousValue := previousValue s;
     operation := operation s; waitingForOperand := waitingForOperand s;
     memory := memory s; history := f (history s);
     showHistory := showHistory s; angleMode := angleMode s |}.

Definition setAngleMode (v : AngleMode) (s : State) : State :=
  {| display := display s; previousValue := previousValue s;
     operation := operation s; waitingForOperand := waitingForOperand s;
     memory := memory s; history := history s;
     showHistory := showHistory s; angleMode := v |}.

(** ** Digit entry *)

(** Every handler reads the state [s] of the render it belongs to; React
    applies its updates before the next event is handled. *)

Definition inputNumber (num : string) (s : State) : State :=
  if waitingForOperand s then
    setWaitingForOperand false (setDisplay num s)
  else
    setDisplay (if (display s =? "0")%string then num else display s ++ num) s.

Definition inputDecimal (s : State) : State :=
  if waitingForOperand s then
    setWaitingForOperand false (setDisplay "0." s)
  else if no_dot (display s) then
    setDisplay (display s ++ ".") s
  else s.

Definition clear (s : State) : State :=
  setWaitingForOperand false
    (setOperation None (setPreviousValue None (setDisplay "0" s))).

Definition clearEntry (s : State) : State :=
  setDisplay "0" s.

(** The inline handlers of the backspace and sign buttons. *)
Definition backspace (s : State) : State :=
  setDisplay (str_or_else (slice_0_m1 (display s)) "0") s.

Definition negate (s : State) : State :=
  setDisplay (Number_toString (- parseFloat (display s))%float) s.

Definition toggleAngleMode (s : State) : State :=
  setAngleMode (match angleMode s with deg => rad | rad => deg end) s.

Definition clearHistory (s : State) : State :=
  setHistory (fun _ => []) s.

Section WithHost.
Variable host : Host.

(** ** Binary operations *)

Definition calculate (firstValue secondValue : number) (operation : string)
  : number :=
  if (operation =? "+")%string then (firstValue + secondValue)%float
  else if (operation =? "-")%string then (firstValue - secondValue)%float
  else if (operation =? "×")%string then (firstValue * secondValue)%float
  else if (operation =? "÷")%string then
    if strict_neq secondValue zero then (firstValue / secondValue)%float
    else zero
  else if (operation =? "^")%string then Math_pow host firstValue secondValue
  else if (operation =? "mod")%string then rem firstValue secondValue
  else secondValue.

Definition performOperation (nextOperation : string) (s : State) : State :=
  let inputValue := parseFloat (display s) in
  let s1 :=
    match previousValue s with
    | None => setPreviousValue (Some inputValue) s
    | Some pv =>
        if truthy_str (operation s) then
          let currentValue := or_else pv zero in
          let newValue :=
            calculate currentValue inputValue
                      (match operation s with Some o => o | None => "" end) in
          setPreviousValue (Some newValue)
            (setDisplay (Number_toString newValue) s)
        else s
    end in
  setOperation (Some nextOperation) (setWaitingForOperand true s1).

(** ** History *)

(** [addToHistory] puts the entry before the first nine of the local list
    and calls the mutation; [now] is what [Date.now()] returns. *)
Definition addToHistory (now : Z) (expression result : string) (s : State)
  : State * list Effect :=
  let newEntry :=
    {| expression := expression; result := result; timestamp := now |} in
  (setHistory (fun prev => newEntry :: firstn 9 prev) s,
   [SaveCalculation expression result]).

(** ** Scientific operations *)

(** [depth] counts the frames left; [None] is the [RangeError] of a stack
    that is full. *)
Fixpoint factorial (depth : nat) (n : number) : option number :=
  match depth with
  | O => None
  | S d =>
      if (n <? zero)%float then Some zero
      else if (n =? zero)%float || (n =? one)%float then Some one
      else
        match factorial d (n - one)%float with
        | Some r => Some (n * r)%float
        | None => None
        end
  end.

(** How the [switch] of [performScientificOperation] is left.
    [Math.sqrt] is the correctly rounded square root of IEEE-754, [NaN]
    below zero. *)
Inductive Switch :=
| Break (result : number) (expression : string)
| Default
| Throw (error : string).

Definition to_radians (mode : AngleMode) (value : number) : number :=
  match mode with
  | deg => (value * Math_PI / 180)%float
  | rad => value
  end.

Definition angle_suffix (mode : AngleMode) : string :=
  match mode with
  | deg => "°"
  | rad => " rad"
  end.

Definition scientific (op : string) (mode : AngleMode) (value : number)
  : Switch :=
  let V := Number_toString value in
  if (op =? "sin")%string then
    Break (Math_sin host (to_radians mode value))
          ("sin(" ++ V ++ angle_suffix mode ++ ")")
  else if (op =? "cos")%string then
    Break (Math_cos host (to_radians mode value))
          ("cos(" ++ V ++ angle_suffix mode ++ ")")
  else if (op =? "tan")%string then
    Break (Math_tan host (to_radians mode value))
          ("tan(" ++ V ++ angle_suffix mode ++ ")")
  else if (op =? "log")%string then
    Break (Math_log10 host value) ("log(" ++ V ++ ")")
  else if (op =? "ln")%string then
    Break (Math_log host value) ("ln(" ++ V ++ ")")
  else if (op =? "sqrt")%string then
    Break (sqrt value) ("√(" ++ V ++ ")")
  else if (op =? "x²")%string then
    Break (value * value)%float ("(" ++ V ++ ")²")
  else if (op =? "x³")%string then
    Break (value * value * value)%float ("(" ++ V ++ ")³")
  else if (op =? "1/x")%string then
    Break (one / value)%float ("1/(" ++ V ++ ")")
  else if (op =? "!")%string then
    match factorial (stack_depth host) (Math_floor value) with
    | Some r => Break r (Number_toString (Math_floor value) ++ "!")
    | None => Throw "RangeError: Maximum call stack size exceeded"
    end
  else if (op =? "π")%string then Break Math_PI "π"
  else if (op =? "e")%string then Break Math_E "e"
  else Default.

Definition performScientificOperation (now : Z) (op : string) (s : State)
  : State * list Effect :=
  let value := parseFloat (display s) in
  match scientific op (angleMode s) value with
  | Break result expression =>
      let '(s1, effects) :=
        addToHistory now expression (Number_toString result)
          (setDisplay (Number_toString result) s) in
      (setWaitingForOperand true s1, effects)
  | Default => (s, [])
  | Throw error => (s, [Uncaught error])
  end.

Definition performEquals (now : Z) (s : State) : State * list Effect :=
  let inputValue := parseFloat (display s) in
  match previousValue s with
  | Some pv =>
      if truthy_str (operation s) then
        let op := match operation s with Some o => o | None => "" end in
        let newValue := calculate pv inputValue op in
        let expression :=
          Number_toString pv ++ " " ++ op ++ " " ++
          Number_toString inputValue in
        let '(s1, effects) :=
          addToHistory now expression (Number_toString newValue)
            (setDisplay (Number_toString newValue) s) in
        (setWaitingForOperand true
           (setOperation None (setPreviousValue None s1)),
         effects)
      else (s, [])
  | None => (s, [])
  end.

(** ** Memory *)

Definition memoryStore (s : State) : State * list Effect :=
  (setMemory (parseFloat (display s)) s,
   [ToastSuccess "Value stored in memory"]).

Definition memoryRecall (s : State) : State :=
  setWaitingForOperand true (setDisplay (Number_toString (memory s)) s).

Definition memoryClear (s : State) : State * list Effect :=
  (setMemory zero s, [ToastSuccess "Memory cleared"]).

Definition memoryAdd (s : State) : State * list Effect :=
  (setMemory (memory s + parseFloat (display s))%float s,
   [ToastSuccess "Value added to memory"]).

(** ** The buttons of the rendered component *)

Inductive Digit := D0 | D1 | D2 | D3 | D4 | D5 | D6 | D7 | D8 | D9.

Inductive Operator := Plus | Minus | Times | Divide | Power | Modulo.

Inductive Function :=
| Sin | Cos | Tan | Log | Ln | Square | Cube | Sqrt | Reciprocal
| Pi | Euler | Factorial.

Inductive Button :=
| Num (d : Digit)
| Point
| OpKey (o : Operator)
| Fn (f : Function)
| Equals
| KeyC
| KeyCE
| Backspace
| PlusMinus
| KeyMC
| KeyMR
| KeyMS
| KeyMPlus
| AngleToggle
| HistoryClear.

(** The string each button passes to its handler. *)
Definition digit_arg (d : Digit) : string :=
  match d with
  | D0 => "0" | D1 => "1" | D2 => "2" | D3 => "3" | D4 => "4"
  | D5 => "5" | D6 => "6" | D7 => "7" | D8 => "8" | D9 => "9"
  end.

Definition operator_arg (o : Operator) : string :=
  match o with
  | Plus => "+" | Minus => "-" | Times => "×" | Divide => "÷"
  | Power => "^" | Modulo => "mod"
  end.

Definition function_arg (f : Function) : string :=
  match f with
  | Sin => "sin" | Cos => "cos" | Tan => "tan" | Log => "log" | Ln => "ln"
  | Square => "x²" | Cube => "x³" | Sqrt => "sqrt" | Reciprocal => "1/x"
  | Pi => "π" | Euler => "e" | Factorial => "!"
  end.

(** The [onClick] of each button, at the time [now]. *)
Definition click (now : Z) (b : Button) (s : State) : State * list Effect :=
  match b with
  | Num d => (inputNumber (digit_arg d) s, [])
  | Point => (inputDecimal s, [])
  | OpKey o => (performOperation (operator_arg o) s, [])
  | Fn f => performScientificOperation now (function_arg f) s
  | Equals => performEquals now s
  | KeyC => (clear s, [])
  | KeyCE => (clearEntry s, [])
  | Backspace => (backspace s, [])
  | PlusMinus => (negate s, [])
  | KeyMC => memoryClear s
  | KeyMR => (memoryRecall s, [])
  | KeyMS => memoryStore s
  | KeyMPlus => memoryAdd s
  | AngleToggle => (toggleAngleMode s, [])
  | HistoryClear => (clearHistory s, [])
  end.

(** A session: the clicks in order, each with its time, and what they
    emit. *)
Fixpoint run (events : list (Z * Button)) (s : State) : State * list Effect :=
  match events with
  | [] => (s, [])
  | (now, b) :: rest =>
      let '(s1, e1) := click now b s in
      let '(s2, e2) := run rest s1 in
      (s2, (e1 ++ e2)%list)
  end.

Definition state_after (events : list (Z * Button)) : State :=
  fst (run events initial).

(** The states a session can be in. *)
Inductive reachable : State -> Prop :=
| reachable_initial : reachable initial
| reachable_click now b s :
    reachable s -> reachable (fst (click now b s)).

(** The same buttons pressed one after the other, at time 0. *)
Definition press (bs : list Button) : State :=
  state_after (map (fun b => (0, b)) bs).

(** The completed calculations among the effects. *)
Definition is_save (e : Effect) : bool :=
  match e with
  | SaveCalculation _ _ => true
  | _ => false
  end.

Definition saves (effects : list Effect) : list Effect :=
  filter is_save effects.

End WithHost.

(** ** Properties of states *)

(** A pending operator comes with a staged value. *)
Definition operator_has_operand (s : State) : Prop :=
  operation s <> None -> previousValue s <> None.

(** The staged value and the pending operator are both there or both
    absent, and a pending operator is the argument of an operator button. *)
Definition both_or_neither (s : State) : Prop :=
  (previousValue s = None <-> operation s = None) /\
  (forall op, operation s = Some op -> exists o, op = operator_arg o).

(** The buttons that type a numeral or leave the display alone: digits,
    the point, backspace, C and CE, the memory buttons that only write the
    memory, the angle mode and the history button. *)
Definition typing_button (b : Button) : bool :=
  match b with
  | Num _ | Point | KeyC | KeyCE | Backspace
  | KeyMC | KeyMS | KeyMPlus | AngleToggle | HistoryClear => true
  | _ => false
  end.

(** A host for running sessions that leave the approximated functions
    alone: they answer [NaN], and ten thousand frames fit on the stack. *)
Definition example_host : Host :=
  {| Math_pow := fun _ _ => nan;
     Math_sin := fun _ => nan;
     Math_cos := fun _ => nan;
     Math_tan := fun _ => nan;
     Math_log10 := fun _ => nan;
     Math_log := fun _ => nan;
     stack_depth := Z.to_nat 10000 |}.

(** ** Typed digits and rendered lines *)

Definition digit_Z (d : Digit) : Z :=
  match d with
  | D0 => 0 | D1 => 1 | D2 => 2 | D3 => 3 | D4 => 4
  | D5 => 5 | D6 => 6 | D7 => 7 | D8 => 8 | D9 => 9
  end.

(** The decimal integer the digits spell. *)
Definition digits_value (ds : list Digit) : Z :=
  fold_left (fun acc d => 10 * acc + digit_Z d) ds 0.

(** The digits written one after the other. *)
Fixpoint digits_string (ds : list Digit) : string :=
  match ds with
  | [] => ""
  | d :: rest => digit_arg d ++ digits_string rest
  end.

Fixpoint drop_zeros (ds : list Digit) : list Digit :=
  match ds with
  | D0 :: rest => drop_zeros rest
  | _ => ds
  end.

(** The digits without their leading zeros, and ["0"] when nothing else
    is left. *)
Definition shown_digits (ds : list Digit) : string :=
  match drop_zeros ds with
  | [] => "0"
  | l => digits_string l
  end.

(** The digit buttons pressed one after the other. *)
Definition type_digits (ds : list Digit) (s : State) : State :=
  fold_left (fun s d => inputNumber (digit_arg d) s) ds s.

(** The line above the display:
    [operation && previousValue !== null && `${previousValue} ${operation}`],
    which renders nothing when it is falsy. *)
Definition pendingLine (s : State) : string :=
  match operation s, previousValue s with
  | Some (String _ _ as op), Some pv => Number_toString pv ++ " " ++ op
  | _, _ => ""
  end.

(** The buttons whose handlers call [setMemory]. *)
Definition writes_memory (b : Button) : bool :=
  match b with
  | KeyMC | KeyMS | KeyMPlus => true
  | _ => false
  end.

(** The buttons whose handlers call [setPreviousValue] or [setOperation]. *)
Definition writes_staged (b : Button) : bool :=
  match b with
  | OpKey _ | Equals | KeyC => true
  | _ => false
  end.

(** The buttons whose handlers read [angleMode]. *)
Definition reads_angleMode (b : Button) : bool :=
  match b with
  | Fn Sin | Fn Cos | Fn Tan | AngleToggle => true
  | _ => false
  end.

(** Expression and result of a local history entry, and of the completed
    calculations among some effects. *)
Definition entry_pair (h : CalculationHistory) : string * string :=
  (expression h, result h).

Definition save_pairs (effects : list Effect) : list (string * string) :=
  flat_map
    (fun e =>
       match e with
       | SaveCalculation expression result => [(expression, result)]
       | _ => []
       end) effects.

End Calculator.

(* ================================================================= *)
(** * The Convex functions, [convex/calculator.ts] *)

Module Convex.
Import JS.

(** A document of the table ["calculations"], without the system fields
    [_id] and [_creationTime] that Convex adds. The table is the list of its
    documents in creation order, which is the order of [_creationTime]. *)
Record Doc := {
  userId : string;
  expression : string;
  result : string
}.

Definition Table := list Doc.

(** The context of a function call: who [getAuthUserId] finds, and the
    table. *)
Record Ctx := {
  auth : option string;
  db : Table
}.

Definition getAuthUserId (ctx : Ctx) : option string := auth ctx.

Inductive Outcome (A : Type) :=
| Done (a : A)
| Thrown (error : string).
Arguments Done {A} a.
Arguments Thrown {A} error.

(** [ctx.db.insert("calculations", doc)] *)
Definition insert (doc : Doc) (t : Table) : Table := (t ++ [doc])%list.

(** The mutation: the table after it, or the error it throws. *)
Definition saveCalculation (ctx : Ctx) (expression result : string)
  : Outcome Table :=
  match getAuthUserId ctx with
  | Some (String _ _ as userId) =>
      Done (insert {| userId := userId; expression := expression;
                      result := result |} (db ctx))
  | _ => Thrown "User must be authenticated"
  end.

(** [.withIndex("by_user", q => q.eq("userId", userId))] *)
Definition by_user (userId : string) (t : Table) : list Doc :=
  filter (fun d => (Convex.userId d =? userId)%string) t.

(** [.order("desc")]: newest first. *)
Definition order_desc (l : list Doc) : list Doc := rev l.

Definition take (n : nat) (l : list Doc) : list Doc := firstn n l.

Definition getHistory (ctx : Ctx) : list Doc :=
  match getAuthUserId ctx with
  | Some (String _ _ as userId) =>
      take 20 (order_desc (by_user userId (db ctx)))
  | _ => []
  end.

(** ** Sequences of mutation calls *)

(** One call of the mutation by the caller [user]; a call that throws
    leaves the table as it was. *)
Definition call (t : Table) (c : option string * string * string) : Table :=
  let '(user, expression, result) := c in
  match saveCalculation {| auth := user; db := t |} expression result with
  | Done t' => t'
  | Thrown _ => t
  end.

Definition calls (cs : list (option string * string * string)) (t : Table)
  : Table :=
  fold_left call cs t.

(** The documents the calls of [user] create, oldest first. *)
Definition docs_of (user : string)
  (cs : list (option string * string * string)) : list Doc :=
  flat_map
    (fun c : option string * string * string =>
       let '(caller, expression, result) := c in
       match caller with
       | Some v =>
           if (v =? user)%string
           then [{| userId := user; expression := expression;
                    result := result |}]
           else []
       | None => []
       end) cs.

(** Expression and result of a document. *)
Definition doc_pair (d : Doc) : string * string :=
  (expression d, result d).

End Convex.

(* ================================================================= *)
(** * The component wired to its backend *)

Module App.
Import JS.

(** The component state, the table behind the mutation, and what was
    written with [console.error]. *)
Record World := {
  ui : Calculator.State;
  table : Convex.Table;
  console : list string
}.

Definition start : World :=
  {| ui := Calculator.initial; table := []; console := [] |}.

(** [addToHistory] awaits the mutation inside [try]/[catch]: a mutation that
    throws is logged and nothing else happens. *)
Definition perform (user : option string) (e : Calculator.Effect) (w : World)
  : World :=
  match e with
  | Calculator.SaveCalculation expression result =>
      match Convex.saveCalculation
              {| Convex.auth := user; Convex.db := table w |}
              expression result with
      | Convex.Done t => {| ui := ui w; table := t; console := console w |}
      | Convex.Thrown error =>
          {| ui := ui w; table := table w;
             console :=
               (console w ++
                [("Failed to save calculation: Error: " ++ error)%string])%list
          |}
      end
  | _ => w
  end.

Definition click (host : Calculator.Host) (user : option string) (now : Z)
  (b : Calculator.Button) (w : World) : World :=
  let '(s, effects) := Calculator.click host now b (ui w) in
  fold_left (fun w e => perform user e w) effects
    {| ui := s; table := table w; console := console w |}.

Fixpoint run (host : Calculator.Host) (user : option string)
  (events : list (Z * Calculator.Button)) (w : World) : World :=
  match events with
  | [] => w
  | (now, b) :: rest => run host user rest (click host user now b w)
  end.

(** [useQuery(api.calculator.getHistory) || []]: the list the panel shows. *)
Definition calculationHistory (user : option string) (w : World)
  : list Convex.Doc :=
  Convex.getHistory {| Convex.auth := user; Convex.db := table w |}.

(** The document a completed calculation becomes for [user]. *)
Definition saved_docs (user : string) (effects : list Calculator.Effect)
  : list Convex.Doc :=
  flat_map
    (fun e =>
       match e with
       | Calculator.SaveCalculation expression result =>
           [{| Convex.userId := user; Convex.expression := expression;
               Convex.result := result |}]
       | _ => []
       end) effects.

End App.

(* ================================================================= *)
(** * Doubles of integers *)

(** The operations on doubles are specified on [spec_float]; the lemmas
    below follow an integer below [2^53] through rounding and through the
    subtraction of one. *)

Module FloatFacts.
Import JS.

















End FloatFacts.

(* ================================================================= *)
(** * Properties of number strings *)

Module JSFacts.
Import JS.

Lemma number_string_iff (s : string) :
  number_string s = true <-> s <> "" /\ number_chars s = true.
Proof.
  destruct s; cbn [number_string]; split.
  - discriminate.
  - intros [H _]. congruence.
  - intros H. split; [discriminate | exact H].
  - intros [_ H]. exact H.
Qed.

Lemma number_chars_app (a b : string) :
  number_chars (a ++ b) = number_chars a && number_chars b.
Proof.
  induction a as [| c a IH]; cbn; [reflexivity |].
  now rewrite IH, andb_assoc.
Qed.

Lemma app_nonempty_l (a b : string) : a <> "" -> a ++ b <> "".
Proof. destruct a; [congruence | discriminate]. Qed.

Lemma app_nonempty_r (a b : string) : b <> "" -> a ++ b <> "".
Proof. destruct a; [trivial | discriminate]. Qed.

Lemma number_chars_substring (n m : nat) (s : string) :
  number_chars s = true -> number_chars (substring n m s) = true.
Proof.
  revert n m. induction s as [| c s IH]; intros n m H.
  - now destruct n, m.
  - cbn in H. apply andb_true_iff in H as [Hc Hs].
    destruct n as [| n]; cbn.
    + destruct m as [| m]; cbn; [reflexivity |].
      now rewrite Hc, (IH 0%nat m Hs).
    + now apply IH.
Qed.

Lemma number_chars_zeros (n : nat) : number_chars (zeros n) = true.
Proof. induction n; cbn; auto. Qed.

Lemma number_chars_uint (u : Decimal.uint) :
  number_chars (NilEmpty.string_of_uint u) = true.
Proof. induction u; cbn; auto. Qed.

Lemma dec_digits_nonempty (p : positive) : dec_digits p <> "".
Proof.
  unfold dec_digits.
  pose proof (DecimalPos.Unsigned.to_uint_nonnil p) as H.
  destruct (Pos.to_uint p); [congruence | discriminate ..].
Qed.

Ltac number_chars_tac :=
  repeat rewrite number_chars_app;
  repeat (apply andb_true_intro; split);
  auto using number_chars_substring, number_chars_zeros, number_chars_uint.

Lemma layout_number_string (ds : string) (n : Z) :
  number_chars ds = true -> ds <> "" -> number_string (layout ds n) = true.
Proof.
  intros Hc Hn. apply number_string_iff. unfold layout, dec_of_Z.
  repeat match goal with
         | |- context [if ?b then _ else _] => destruct b
         end;
    (split;
     [ first [ now apply app_nonempty_l
             | apply app_nonempty_r; discriminate
             | apply app_nonempty_r, app_nonempty_r; discriminate
             | discriminate ]
     | number_chars_tac ]).
Qed.

Lemma finite_string_number_string (x : number) (m : positive) (e : Z) :
  number_string (finite_string x m e) = true.
Proof.
  unfold finite_string.
  destruct (fraction m e) as [num den].
  destruct (shortest_from 17 x num den (position num den) 1) as [s q].
  destruct (strip_zeros 20 s q) as [s' q'].
  apply layout_number_string.
  - apply number_chars_uint.
  - apply dec_digits_nonempty.
Qed.

(** The string of a number is not empty and made of number characters. *)
Lemma Number_toString_number_string (x : number) :
  number_string (Number_toString x) = true.
Proof.
  unfold Number_toString.
  destruct (Prim2SF x) as [sg | sg | | sg m e]; try reflexivity.
  - now destruct sg.
  - pose proof (finite_string_number_string (abs x) m e) as H.
    apply number_string_iff in H as [Hn Hc].
    destruct sg; apply number_string_iff; split.
    + discriminate.
    + cbn. exact Hc.
    + exact Hn.
    + exact Hc.
Qed.

Lemma number_chars_slice (s : string) :
  number_chars s = true -> number_chars (slice_0_m1 s) = true.
Proof.
  induction s as [| c s IH]; [trivial |].
  intros H. cbn in H. apply andb_true_iff in H as [Hc Hs].
  destruct s as [| c' s']; [reflexivity |].
  change (number_char c && number_chars (slice_0_m1 (String c' s')) = true).
  now rewrite Hc, IH.
Qed.

(** ** Typed numerals *)

Lemma all_digits_app (a b : string) :
  all_digits (a ++ b) = all_digits a && all_digits b.
Proof.
  induction a as [| c a IH]; cbn; [reflexivity |].
  now rewrite IH, andb_assoc.
Qed.

Lemma digits_one_point_app_digits (a b : string) :
  digits_one_point a = true -> all_digits b = true ->
  digits_one_point (a ++ b) = true.
Proof.
  intros Ha Hb. induction a as [| c a IH]; cbn in *.
  - destruct b as [| d b]; [reflexivity |]. cbn in *.
    apply andb_true_iff in Hb as [Hd Hb].
    destruct (d =? ".")%char eqn:E.
    + apply Ascii.eqb_eq in E. subst d. discriminate.
    + rewrite Hd. cbn. clear -Hb. induction b as [| c b IH]; [reflexivity |].
      cbn in *. apply andb_true_iff in Hb as [Hc Hb].
      destruct (c =? ".")%char eqn:E.
      * apply Ascii.eqb_eq in E. subst c. discriminate.
      * now rewrite Hc, IH.
  - destruct (c =? ".")%char.
    + now rewrite all_digits_app, Ha, Hb.
    + apply andb_true_iff in Ha as [Hc Ha]. now rewrite Hc, IH.
Qed.

Lemma digits_one_point_app_point (a : string) :
  no_dot a = true -> digits_one_point a = true ->
  digits_one_point (a ++ ".") = true.
Proof.
  induction a as [| c a IH]; cbn; [reflexivity |].
  destruct (c =? ".")%char; [discriminate |].
  intros Hd H. apply andb_true_iff in H as [Hc Ha]. now rewrite Hc, IH.
Qed.

Lemma all_digits_slice (s : string) :
  all_digits s = true -> all_digits (slice_0_m1 s) = true.
Proof.
  induction s as [| c s IH]; [trivial |].
  intros H. cbn in H. apply andb_true_iff in H as [Hc Hs].
  destruct s as [| c' s']; [reflexivity |].
  change (is_digit c && all_digits (slice_0_m1 (String c' s')) = true).
  now rewrite Hc, IH.
Qed.

Lemma digits_one_point_slice (s : string) :
  digits_one_point s = true -> digits_one_point (slice_0_m1 s) = true.
Proof.
  induction s as [| c s IH]; [trivial |].
  intros H. destruct s as [| c' s']; [reflexivity |].
  change (digits_one_point (String c (slice_0_m1 (String c' s'))) = true).
  cbn [digits_one_point] in H |- *.
  destruct (c =? ".")%char.
  - now apply all_digits_slice.
  - apply andb_true_iff in H as [Hc Hs]. now rewrite Hc, IH.
Qed.

Lemma typed_decimal_numeral (s : string) :
  typed s -> decimal_numeral s = true.
Proof.
  intros [H1 H2]. destruct s as [| c s]; [discriminate |].
  unfold decimal_numeral.
  destruct (Ascii.eqb_spec c "-"%char) as [-> | Hc]; [discriminate |].
  assert (E : starts_with_digit (String c s) && digits_one_point (String c s)
              = true) by now rewrite H1, H2.
  destruct c as [[] [] [] [] [] [] [] []]; try exact E; congruence.
Qed.

Lemma typed_app_digit (s d : string) :
  typed s -> all_digits d = true -> typed (s ++ d).
Proof.
  intros [H1 H2] Hd. split.
  - destruct s; [discriminate | exact H1].
  - now apply digits_one_point_app_digits.
Qed.

Lemma typed_app_point (s : string) :
  typed s -> no_dot s = true -> typed (s ++ ".").
Proof.
  intros [H1 H2] Hd. split.
  - destruct s; [discriminate | exact H1].
  - now apply digits_one_point_app_point.
Qed.

Lemma typed_slice (s : string) :
  typed s -> typed (str_or_else (slice_0_m1 s) "0").
Proof.
  intros [H1 H2].
  destruct (slice_0_m1 s) as [| c r] eqn:E; [now split |].
  cbn [str_or_else]. rewrite <- E. split.
  - destruct s as [| c0 [| c1 s1]]; try discriminate. exact H1.
  - now apply digits_one_point_slice.
Qed.

(** ** Points and signs of number strings *)

Lemma all_digits_uint (u : Decimal.uint) :
  all_digits (NilEmpty.string_of_uint u) = true.
Proof. induction u; cbn; auto. Qed.

Lemma all_digits_zeros (n : nat) : all_digits (zeros n) = true.
Proof. induction n; cbn; auto. Qed.

Lemma all_digits_substring (n m : nat) (s : string) :
  all_digits s = true -> all_digits (substring n m s) = true.
Proof.
  revert n m. induction s as [| c s IH]; intros n m H.
  - now destruct n, m.
  - cbn in H. apply andb_true_iff in H as [Hc Hs].
    destruct n as [| n]; cbn.
    + destruct m as [| m]; cbn; [reflexivity |].
      now rewrite Hc, (IH 0%nat m Hs).
    + now apply IH.
Qed.

Lemma is_digit_plain (c : ascii) :
  is_digit c = true -> (c =? ".")%char = false /\ is_sign c = false.
Proof.
  destruct c as [[] [] [] [] [] [] [] []]; intros H;
    try discriminate H; split; reflexivity.
Qed.

Lemma all_digits_plain (s : string) :
  all_digits s = true -> count_points s = 0%nat /\ no_signs s = true.
Proof.
  induction s as [| c s IH]; [now split |].
  cbn. intros H. apply andb_true_iff in H as [Hc Hs].
  destruct (is_digit_plain c Hc) as [-> ->]. now apply IH.
Qed.

Lemma count_points_app (a b : string) :
  count_points (a ++ b) = (count_points a + count_points b)%nat.
Proof.
  induction a as [| c a IH]; [reflexivity |].
  cbn. rewrite IH. now destruct (c =? ".")%char.
Qed.

Lemma count_points_no_dot (s : string) :
  no_dot s = true <-> count_points s = 0%nat.
Proof.
  induction s as [| c s IH]; [now split |].
  cbn. destruct (c =? ".")%char; [split; discriminate | exact IH].
Qed.

Lemma count_points_slice (s : string) :
  (count_points (slice_0_m1 s) <= count_points s)%nat.
Proof.
  induction s as [| c s IH]; [cbn; lia |].
  destruct s as [| c' s']; [cbn; destruct (c =? ".")%char; lia |].
  change (slice_0_m1 (String c (String c' s')))
    with (String c (slice_0_m1 (String c' s'))).
  cbn [count_points] in *. destruct (c =? ".")%char; lia.
Qed.

Lemma no_signs_app (a b : string) :
  no_signs (a ++ b) = no_signs a && no_signs b.
Proof.
  induction a as [| c a IH]; [reflexivity |].
  cbn. now rewrite IH, andb_assoc.
Qed.

Lemma signs_follow_no_signs (s : string) (prev : ascii) :
  no_signs s = true -> signs_follow prev s = true.
Proof.
  revert prev. induction s as [| c s IH]; intros prev H; [reflexivity |].
  cbn in *. apply andb_true_iff in H as [Hc Hs].
  now rewrite Hc, IH.
Qed.

(** After a run without signs, only the first character of what follows
    matters. *)
Lemma signs_follow_app_l (a : string) (c : ascii) (r : string) (prev : ascii) :
  no_signs a = true -> is_sign c = false ->
  signs_follow prev (a ++ String c r) = signs_follow c r.
Proof.
  revert prev. induction a as [| x a IH]; intros prev Ha Hc.
  - cbn. now rewrite Hc.
  - cbn in *. apply andb_true_iff in Ha as [Hx Ha].
    now rewrite Hx, IH.
Qed.

Lemma signs_follow_app_r (a b : string) (prev : ascii) :
  signs_follow prev a = true -> no_signs b = true ->
  signs_follow prev (a ++ b) = true.
Proof.
  revert prev. induction a as [| x a IH]; intros prev Ha Hb.
  - now apply signs_follow_no_signs.
  - cbn in *. apply andb_true_iff in Ha as [Hx Ha].
    now rewrite Hx, IH.
Qed.

Lemma signs_follow_slice (s : string) (prev : ascii) :
  signs_follow prev s = true -> signs_follow prev (slice_0_m1 s) = true.
Proof.
  revert prev. induction s as [| c s IH]; intros prev H; [trivial |].
  destruct s as [| c' s']; [reflexivity |].
  change (slice_0_m1 (String c (String c' s')))
    with (String c (slice_0_m1 (String c' s'))).
  cbn [signs_follow] in H |- *. apply andb_true_iff in H as [Hc Hs].
  rewrite Hc. now apply IH.
Qed.

Lemma signs_placed_app (a b : string) :
  signs_placed a = true -> no_signs b = true -> signs_placed (a ++ b) = true.
Proof.
  intros Ha Hb. destruct a as [| c a].
  - destruct b as [| x b]; [reflexivity |]. cbn in *.
    apply andb_true_iff in Hb as [Hx Hb].
    unfold is_sign in Hx. apply negb_true_iff, orb_false_iff in Hx as [_ Hx].
    rewrite Hx. now apply signs_follow_no_signs.
  - cbn in *. apply andb_true_iff in Ha as [Hc Ha].
    now rewrite Hc, signs_follow_app_r.
Qed.

Lemma signs_placed_slice (s : string) :
  signs_placed s = true -> signs_placed (slice_0_m1 s) = true.
Proof.
  destruct s as [| c [| c' s']]; try reflexivity.
  change (slice_0_m1 (String c (String c' s')))
    with (String c (slice_0_m1 (String c' s'))).
  cbn [signs_placed]. intros H. apply andb_true_iff in H as [Hc Hs].
  rewrite Hc. now apply signs_follow_slice.
Qed.

Lemma string_app_assoc (a b c : string) : (a ++ b) ++ c = a ++ b ++ c.
Proof. induction a as [| x a IH]; cbn; congruence. Qed.

(** The exponent part of a number string. *)
Lemma exponent_tail (e : Z) (prev : ascii) :
  let tail := "e" ++ (if e <? 0 then "-" else "+") ++ dec_of_Z (Z.abs e) in
  count_points tail = 0%nat /\ signs_follow prev tail = true.
Proof.
  cbn zeta. unfold dec_of_Z.
  destruct (all_digits_plain _ (all_digits_uint (N.to_uint (Z.to_N (Z.abs e)))))
    as [Hp Hs].
  destruct (e <? 0); cbn; rewrite Hp, (signs_follow_no_signs _ _ Hs);
    now split.
Qed.

(** The layout of digits has at most one point, and its signs are in the
    exponent. *)
Lemma layout_shape (ds : string) (n : Z) (prev : ascii) :
  all_digits ds = true ->
  (count_points (layout ds n) <= 1)%nat /\
  signs_follow prev (layout ds n) = true.
Proof.
  intros Hd. unfold layout.
  set (e := n - 1).
  set (k := Z.of_nat (String.length ds)).
  destruct (exponent_tail e "0"%char) as [Tp _].
  cbn zeta in Tp.
  set (tail := "e" ++ (if e <? 0 then "-" else "+") ++ dec_of_Z (Z.abs e))
    in *.
  assert (Ts : forall a, no_signs a = true ->
                         signs_follow prev (a ++ tail) = true).
  { intros a Ha. unfold tail. cbn [append].
    rewrite (signs_follow_app_l a "e"%char _ prev Ha eq_refl).
    destruct (exponent_tail e "0"%char) as [_ H]. cbn zeta in H.
    cbn [append signs_follow] in H. exact H. }
  assert (Z0 : forall m, count_points (zeros m) = 0%nat /\
                         no_signs (zeros m) = true)
    by (intros m; apply all_digits_plain, all_digits_zeros).
  assert (S0 : forall a b, count_points (substring a b ds) = 0%nat /\
                           no_signs (substring a b ds) = true)
    by (intros a b; now apply all_digits_plain, all_digits_substring).
  destruct (all_digits_plain ds Hd) as [Dp Ds].
  destruct ((k <=? n) && (n <=? 21)).
  - destruct (Z0 (Z.to_nat (n - k))) as [Zp Zs]. split.
    + rewrite count_points_app, Dp, Zp. lia.
    + apply signs_follow_no_signs. now rewrite no_signs_app, Ds, Zs.
  - destruct ((0 <? n) && (n <=? 21)).
    + destruct (S0 0%nat (Z.to_nat n)) as [Ap As].
      destruct (S0 (Z.to_nat n) (Z.to_nat (k - n))) as [Bp Bs]. split.
      * rewrite !count_points_app, Ap, Bp. cbn. lia.
      * apply signs_follow_no_signs.
        rewrite !no_signs_app, As, Bs. reflexivity.
    + destruct ((-6 <? n) && (n <=? 0)).
      * destruct (Z0 (Z.to_nat (- n))) as [Zp Zs]. split.
        -- rewrite !count_points_app, Zp, Dp. cbn. lia.
        -- apply signs_follow_no_signs.
           rewrite !no_signs_app, Zs, Ds. reflexivity.
      * destruct (k =? 1).
        -- split; [rewrite count_points_app, Dp, Tp; lia | now apply Ts].
        -- destruct (S0 0%nat 1%nat) as [Ap As].
           destruct (S0 1%nat (Z.to_nat (k - 1))) as [Bp Bs]. split.
           ++ rewrite !count_points_app, Ap, Bp, Tp. cbn. lia.
           ++ rewrite <- (string_app_assoc "." _ tail).
              rewrite <- (string_app_assoc _ _ tail). apply Ts.
              rewrite !no_signs_app, As, Bs. reflexivity.
Qed.

Lemma finite_string_shape (x : number) (m : positive) (e : Z) (prev : ascii) :
  (count_points (finite_string x m e) <= 1)%nat /\
  signs_follow prev (finite_string x m e) = true.
Proof.
  unfold finite_string.
  destruct (fraction m e) as [num den].
  destruct (shortest_from 17 x num den (position num den) 1) as [s q].
  destruct (strip_zeros 20 s q) as [s' q'].
  apply layout_shape, all_digits_uint.
Qed.

(** The string of a number has at most one point, a minus sign only in
    front or in the exponent, and a plus sign only in the exponent. *)
Lemma Number_toString_shape (x : number) :
  (count_points (Number_toString x) <= 1)%nat /\
  signs_placed (Number_toString x) = true.
Proof.
  unfold Number_toString.
  destruct (Prim2SF x) as [sg | sg | | sg m e].
  - cbn. split; [lia | reflexivity].
  - destruct sg; cbn; split; (lia || reflexivity).
  - cbn. split; [lia | reflexivity].
  - destruct sg.
    + destruct (finite_string_shape (abs x) m e "-"%char) as [Hp Hs].
      cbn [append count_points signs_placed]. cbn. now split.
    + destruct (finite_string_shape (abs x) m e "0"%char) as [Hp Hs].
      cbn [append]. split; [exact Hp |].
      destruct (finite_string (abs x) m e) as [| c r]; [reflexivity |].
      cbn [signs_follow signs_placed] in *.
      apply andb_true_iff in Hs as [Hc Hr]. rewrite Hr, andb_true_r.
      rewrite orb_false_r in Hc. unfold is_sign in Hc.
      apply negb_true_iff, orb_false_iff in Hc as [_ Hc]. now rewrite Hc.
Qed.

End JSFacts.

(* ================================================================= *)
(** * Properties of the calculator *)

Module CalculatorFacts.
Import JS Calculator.

(** Two different double constants are told apart by computing their
    bitwise comparison. *)
Ltac float_discriminate H :=
  match type of H with
  | ?x = ?y =>
      apply (f_equal (fun z => PrimFloat.Leibniz.eqb z y)) in H;
      vm_compute in H; discriminate H
  end.

(** ** Division *)

(** C3. [calculate(x, 0, "÷")] is exactly [0] for every [x], for either
    zero as divisor, and [0] is neither NaN nor an infinity; with a divisor
    [y !== 0] the result is the IEEE-754 quotient [x / y]. *)
Theorem calculate_divide (host : Host) (x : number) :
  calculate host x zero "÷" = zero /\
  calculate host x neg_zero "÷" = zero /\
  is_nan zero = false /\ is_infinity zero = false /\
  forall y, strict_neq y zero = true ->
            calculate host x y "÷" = (x / y)%float.
Proof.
  repeat split.
  intros y Hy. unfold calculate. simpl. now rewrite Hy.
Qed.

Lemma calculate_divide_witness :
  strict_neq 2%float zero = true /\
  calculate example_host 7%float 2%float "÷" = 3.5%float.
Proof.
  split; [reflexivity|].
  exact (proj2 (proj2 (proj2 (proj2 (calculate_divide example_host 7%float))))
           2%float eq_refl).
Defined.

(** ** Equals *)

Lemma truthy_str_cons (op : string) :
  op <> "" -> truthy_str (Some op) = true.
Proof. destruct op; [congruence | reflexivity]. Qed.

(** C1. With a staged value [pv] and a pending operator [op], [performEquals]
    shows [calculate(pv, parseFloat(display), op)], clears the staged value
    and the operator, waits for a new operand and emits exactly one record,
    whose expression is ["pv op inputValue"] and whose result is the new
    display (the same entry goes to the front of the local history); when
    either is absent it changes nothing and emits nothing. *)
Theorem performEquals_spec (host : Host) (now : Z) (s : State) :
  (forall pv op,
      previousValue s = Some pv -> operation s = Some op -> op <> "" ->
      let inputValue := parseFloat (display s) in
      let newValue := calculate host pv inputValue op in
      let s' := fst (performEquals host now s) in
      display s' = Number_toString newValue /\
      previousValue s' = None /\
      operation s' = None /\
      waitingForOperand s' = true /\
      memory s' = memory s /\
      angleMode s' = angleMode s /\
      history s' =
        {| expression := Number_toString pv ++ " " ++ op ++ " " ++
                         Number_toString inputValue;
           result := Number_toString newValue; timestamp := now |}
          :: firstn 9 (history s) /\
      snd (performEquals host now s) =
        [SaveCalculation
           (Number_toString pv ++ " " ++ op ++ " " ++
            Number_toString inputValue)
           (Number_toString newValue)]) /\
  (previousValue s = None \/ operation s = None ->
   performEquals host now s = (s, [])).
Proof.
  split.
  - intros pv op Hpv Hop Hne. unfold performEquals.
    rewrite Hpv, Hop, (truthy_str_cons op Hne). cbn.
    repeat split.
  - intros [H | H]; unfold performEquals; rewrite H.
    + reflexivity.
    + now destruct (previousValue s).
Qed.

(** The state after the keys 7, +, 3. *)
Lemma performEquals_spec_witness :
  let s := press example_host [Num D7; OpKey Plus; Num D3] in
  display (fst (performEquals example_host 0 s)) = "10" /\
  snd (performEquals example_host 0 s) = [SaveCalculation "7 + 3" "10"].
Proof.
  pose (s := press example_host [Num D7; OpKey Plus; Num D3]).
  destruct (proj1 (performEquals_spec example_host 0 s) 7%float "+"
              eq_refl eq_refl ltac:(discriminate))
    as (Hd & _ & _ & _ & _ & _ & _ & He).
  split; [exact Hd | exact He].
Defined.

(** ** Memory *)

(** C9, as the code has it. After [memoryStore] on the display ["10"] and
    with ["5"] on the display, one [memoryAdd] leaves 15 in the memory and
    the second one 20: each call adds the display to the memory it finds. *)
Theorem memoryAdd_twice (s : State) :
  let s1 := fst (memoryStore (setDisplay "10" s)) in
  let s2 := setDisplay "5" s1 in
  memory s1 = 10%float /\
  memory (fst (memoryAdd s2)) = 15%float /\
  memory (fst (memoryAdd (fst (memoryAdd s2)))) = 20%float.
Proof. repeat split. Qed.

(** From the initial state, by the calls themselves and by the buttons
    1, 0, MS, CE, 5, M+, M+: the memory does not hold 15 after the second
    [memoryAdd]. *)
Lemma memoryAdd_twice_not_15 :
  memory
    (fst (memoryAdd
            (fst (memoryAdd
                    (setDisplay "5"
                       (fst (memoryStore (setDisplay "10" initial))))))))
  <> 15%float /\
  memory (press example_host
            [Num D1; Num D0; KeyMS; KeyCE; Num D5; KeyMPlus; KeyMPlus])
  <> 15%float.
Proof.
  split; intro H; vm_compute in H; float_discriminate H.
Qed.

(** ** Sessions *)

Lemma run_app (host : Host) (e1 e2 : list (Z * Button)) (s : State) :
  run host (e1 ++ e2) s =
  (fst (run host e2 (fst (run host e1 s))),
   snd (run host e1 s) ++ snd (run host e2 (fst (run host e1 s))))%list.
Proof.
  revert s. induction e1 as [| [now b] e1 IH]; intros s; cbn.
  - now destruct (run host e2 s).
  - destruct (click host now b s) as [s1 f1]. rewrite IH.
    destruct (run host e1 s1) as [s2 f2]. cbn.
    now rewrite app_assoc.
Qed.

Lemma reachable_run (host : Host) (events : list (Z * Button)) (s : State) :
  reachable host s -> reachable host (fst (run host events s)).
Proof.
  revert s. induction events as [| [now b] rest IH]; intros s Hs; cbn.
  - exact Hs.
  - specialize (IH _ (reachable_click host now b s Hs)).
    destruct (click host now b s) as [s1 f1]. cbn in IH.
    now destruct (run host rest s1).
Qed.

Lemma reachable_press (host : Host) (bs : list Button) :
  reachable host (press host bs).
Proof. apply reachable_run, reachable_initial. Qed.

Lemma reachable_is_run (host : Host) (s : State) :
  reachable host s -> exists events, s = fst (run host events initial).
Proof.
  induction 1 as [| now b s _ [events ->]].
  - now exists [].
  - exists (events ++ [(now, b)])%list. rewrite run_app. cbn.
    now destruct (click host now b (fst (run host events initial))).
Qed.

(** ** Chained operators *)

(** What [performOperation] does with a staged value and a pending
    operator: the pending operator is applied to [pv || 0]. *)
Lemma performOperation_pending (host : Host) (next : string) (s : State)
  (pv : number) (op : string) :
  previousValue s = Some pv -> operation s = Some op -> op <> "" ->
  let r := calculate host (or_else pv zero) (parseFloat (display s)) op in
  performOperation host next s =
  setOperation (Some next)
    (setWaitingForOperand true
       (setPreviousValue (Some r) (setDisplay (Number_toString r) s))).
Proof.
  intros Hpv Hop Hne. unfold performOperation.
  now rewrite Hpv, Hop, (truthy_str_cons op Hne).
Qed.

(** For a staged value that is neither NaN nor a zero this is the pending
    operator applied to the staged value itself. *)
Lemma performOperation_chained (host : Host) (next : string) (s : State)
  (pv : number) (op : string) :
  previousValue s = Some pv -> operation s = Some op -> op <> "" ->
  truthy pv = true ->
  let r := calculate host pv (parseFloat (display s)) op in
  let s' := performOperation host next s in
  display s' = Number_toString r /\ previousValue s' = Some r /\
  operation s' = Some next /\ waitingForOperand s' = true.
Proof.
  intros Hpv Hop Hne Ht.
  rewrite (performOperation_pending host next s pv op Hpv Hop Hne).
  unfold or_else. rewrite Ht. cbn. repeat split.
Qed.

(** The keys 7, +, 3, ×, 2, = end on the display ["20"]: pressing × shows
    10 and stages it. *)
Lemma chained_7_plus_3_times_2 (host : Host) :
  display (press host [Num D7; OpKey Plus; Num D3; OpKey Times]) = "10" /\
  previousValue (press host [Num D7; OpKey Plus; Num D3; OpKey Times])
    = Some 10%float /\
  display (press host [Num D7; OpKey Plus; Num D3; OpKey Times; Num D2;
                       Equals]) = "20".
Proof. repeat split; vm_compute; reflexivity. Qed.

(** C2, at a staged NaN. After the keys 5, ±, √, +, 3 the staged value is
    NaN, the pending operator is [+] and the display is ["3"]; the pending
    addition of the staged value and the display is [NaN + 3 = NaN], which
    is what = shows, but pressing × shows and stages [0 + 3 = 3]. The keys
    5, ±, ⌫, +, 3 lead to the same state through [parseFloat("-")]. *)
Theorem performOperation_staged_NaN (host : Host) :
  let s := press host [Num D5; PlusMinus; Fn Sqrt; OpKey Plus; Num D3] in
  let s' := press host [Num D5; PlusMinus; Backspace; OpKey Plus; Num D3] in
  previousValue s = Some nan /\
  operation s = Some "+" /\
  display s = "3" /\
  Number_toString (calculate host nan (parseFloat (display s)) "+") = "NaN" /\
  display (fst (performEquals host 0 s)) = "NaN" /\
  display (performOperation host "×" s) = "3" /\
  previousValue (performOperation host "×" s) = Some 3%float /\
  previousValue s' = Some nan /\
  operation s' = Some "+" /\
  display s' = "3" /\
  display (performOperation host "×" s') = "3".
Proof. repeat split; vm_compute; reflexivity. Qed.

(** ** The staged value and the pending operator *)

Lemma performScientificOperation_staged (host : Host) (now : Z) (op : string)
  (s : State) :
  previousValue (fst (performScientificOperation host now op s))
    = previousValue s /\
  operation (fst (performScientificOperation host now op s)) = operation s.
Proof.
  unfold performScientificOperation.
  destruct (scientific host op (angleMode s) (parseFloat (display s)));
    split; reflexivity.
Qed.

Lemma performEquals_staged (host : Host) (now : Z) (s : State) :
  (previousValue (fst (performEquals host now s)) = None /\
   operation (fst (performEquals host now s)) = None) \/
  performEquals host now s = (s, []).
Proof.
  unfold performEquals. destruct (previousValue s); [| now right].
  destruct (truthy_str (operation s)); [left | right]; now cbn.
Qed.

Lemma performOperation_staged (host : Host) (next : string) (s : State) :
  previousValue (performOperation host next s) <> None /\
  operation (performOperation host next s) = Some next.
Proof.
  unfold performOperation. destruct (previousValue s) eqn:E.
  - destruct (truthy_str (operation s)); cbn; rewrite ?E; split;
      congruence.
  - cbn. split; congruence.
Qed.

(** Every button keeps a pending operator together with a staged value. *)
Lemma click_operator_has_operand (host : Host) (now : Z) (b : Button)
  (s : State) :
  operator_has_operand s -> operator_has_operand (fst (click host now b s)).
Proof.
  unfold operator_has_operand. intros Hs.
  destruct b; cbn [click fst]; try exact Hs.
  - unfold inputNumber. destruct (waitingForOperand s); exact Hs.
  - unfold inputDecimal.
    destruct (waitingForOperand s); [exact Hs |].
    destruct (no_dot (display s)); exact Hs.
  - intros _. apply performOperation_staged.
  - destruct (performScientificOperation_staged host now (function_arg f) s)
      as [-> ->]. exact Hs.
  - destruct (performEquals_staged host now s) as [[_ ->] | ->];
      [congruence | exact Hs].
  - cbn. congruence.
Qed.

(** In a session the two are in fact set and cleared together. *)
Lemma click_both_or_neither (host : Host) (now : Z) (b : Button) (s : State) :
  both_or_neither s -> both_or_neither (fst (click host now b s)).
Proof.
  unfold both_or_neither. intros Hs.
  destruct b; cbn [click fst]; try exact Hs.
  - unfold inputNumber. destruct (waitingForOperand s); exact Hs.
  - unfold inputDecimal.
    destruct (waitingForOperand s); [exact Hs |].
    destruct (no_dot (display s)); exact Hs.
  - destruct (performOperation_staged host (operator_arg o) s) as [Hp ->].
    split; [split; congruence |].
    intros op [= <-]. now exists o.
  - destruct (performScientificOperation_staged host now (function_arg f) s)
      as [-> ->]. exact Hs.
  - destruct (performEquals_staged host now s) as [[-> ->] | ->];
      [| exact Hs].
    split; [tauto | discriminate].
  - cbn. split; [tauto | discriminate].
Qed.

Lemma reachable_both_or_neither (host : Host) (s : State) :
  reachable host s -> both_or_neither s.
Proof.
  induction 1 as [| now b s _ IH].
  - split; [cbn; tauto | discriminate].
  - now apply click_both_or_neither.
Qed.

(** C4. In every state of a session a pending operator comes with a staged
    value, and every button keeps it so, from any state where it holds. *)
Theorem pending_operator_has_operand (host : Host) :
  (forall s, reachable host s -> operator_has_operand s) /\
  (forall now b s,
      operator_has_operand s ->
      operator_has_operand (fst (click host now b s))).
Proof.
  split.
  - induction 1 as [| now b s _ IH].
    + intros H. now cbn in H.
    + now apply click_operator_has_operand.
  - apply click_operator_has_operand.
Qed.

Lemma pending_operator_has_operand_witness :
  previousValue (press example_host [Num D7; OpKey Plus; Num D3]) <> None.
Proof.
  apply (proj1 (pending_operator_has_operand example_host)
           (press example_host [Num D7; OpKey Plus; Num D3])).
  - apply reachable_press.
  - vm_compute. discriminate.
Defined.

(** ** The local history *)

Lemma addToHistory_history (now : Z) (expression result : string) (s : State) :
  history (fst (addToHistory now expression result s))
  = {| expression := expression; result := result; timestamp := now |}
      :: firstn 9 (history s).
Proof. reflexivity. Qed.

(** What a click does to the local history: a completed calculation puts
    one entry before the first nine, the history button empties the list,
    and nothing else touches it. *)
Lemma click_history (host : Host) (now : Z) (b : Button) (s : State) :
  (b = HistoryClear /\ history (fst (click host now b s)) = [] /\
   saves (snd (click host now b s)) = []) \/
  (history (fst (click host now b s)) = history s /\
   saves (snd (click host now b s)) = []) \/
  (exists expression result,
      history (fst (click host now b s))
      = {| expression := expression; result := result; timestamp := now |}
          :: firstn 9 (history s) /\
      snd (click host now b s) = [SaveCalculation expression result]).
Proof.
  destruct b; cbn [click fst snd];
    try (right; left; split; reflexivity).
  - right; left; split; [| reflexivity].
    unfold inputNumber. now destruct (waitingForOperand s).
  - right; left; split; [| reflexivity].
    unfold inputDecimal. destruct (waitingForOperand s); [reflexivity |].
    now destruct (no_dot (display s)).
  - right; left; split; [| reflexivity].
    unfold performOperation. destruct (previousValue s); [| reflexivity].
    now destruct (truthy_str (operation s)).
  - unfold performScientificOperation.
    destruct (scientific host (function_arg f) (angleMode s)
                (parseFloat (display s))) as [r e | | err].
    + right; right. exists e, (Number_toString r). split; reflexivity.
    + right; left. split; reflexivity.
    + right; left. split; reflexivity.
  - unfold performEquals.
    destruct (previousValue s) as [pv |]; [| right; left; split; reflexivity].
    destruct (truthy_str (operation s));
      [| right; left; split; reflexivity].
    right; right. eexists _, _. split; reflexivity.
  - left. repeat split.
Qed.

Lemma saves_app (e1 e2 : list Effect) :
  saves (e1 ++ e2) = (saves e1 ++ saves e2)%list.
Proof. apply filter_app. Qed.

Lemma click_history_le (host : Host) (now : Z) (b : Button) (s : State) :
  (List.length (history s) <= 10)%nat ->
  (List.length (history (fst (click host now b s))) <= 10)%nat.
Proof.
  intros Hs.
  destruct (click_history host now b s)
    as [(_ & -> & _) | [(-> & _) | (e & r & -> & _)]]; cbn [List.length].
  - lia.
  - exact Hs.
  - rewrite length_firstn. lia.
Qed.

Lemma click_history_length (host : Host) (now : Z) (b : Button) (s : State) :
  b <> HistoryClear ->
  (List.length (history s) <= 10)%nat ->
  List.length (history (fst (click host now b s)))
  = Nat.min (List.length (history s)
             + List.length (saves (snd (click host now b s)))) 10.
Proof.
  intros Hb Hs.
  destruct (click_history host now b s)
    as [(E & _) | [(-> & ->) | (e & r & -> & ->)]];
    cbn [List.length saves filter is_save].
  - congruence.
  - lia.
  - rewrite length_firstn. lia.
Qed.

Lemma run_history_le (host : Host) (events : list (Z * Button)) (s : State) :
  (List.length (history s) <= 10)%nat ->
  (List.length (history (fst (run host events s))) <= 10)%nat.
Proof.
  revert s. induction events as [| [now b] rest IH]; intros s Hs; cbn.
  - exact Hs.
  - specialize (IH _ (click_history_le host now b s Hs)).
    destruct (click host now b s) as [s1 f1]. cbn in IH.
    now destruct (run host rest s1).
Qed.

Lemma run_history_length (host : Host) (events : list (Z * Button))
  (s : State) :
  ~ In HistoryClear (map snd events) ->
  (List.length (history s) <= 10)%nat ->
  List.length (history (fst (run host events s)))
  = Nat.min (List.length (history s)
             + List.length (saves (snd (run host events s)))) 10.
Proof.
  revert s. induction events as [| [now b] rest IH]; intros s Hc Hs.
  - cbn. lia.
  - cbn [map snd In] in Hc.
    assert (Hb : b <> HistoryClear) by (intros ->; apply Hc; now left).
    assert (Hr : ~ In HistoryClear (map snd rest)) by tauto.
    pose proof (click_history_length host now b s Hb Hs) as H1.
    pose proof (click_history_le host now b s Hs) as H2.
    specialize (IH _ Hr H2). cbn [run].
    destruct (click host now b s) as [s1 f1]. cbn [fst snd] in *.
    destruct (run host rest s1) as [s2 f2]. cbn [fst snd] in *.
    rewrite saves_app, length_app. lia.
Qed.

(** ** Factorial *)

Lemma factorial_step (depth : nat) (n : number) :
  (n <? zero)%float = false ->
  (n =? zero)%float = false ->
  (n =? one)%float = false ->
  factorial (S depth) n
  = match factorial depth (n - one)%float with
    | Some r => Some (n * r)%float
    | None => None
    end.
Proof. intros H1 H2 H3. cbn [factorial]. now rewrite H1, H2, H3. Qed.







(** ** The display *)

Lemma digit_arg_digits (d : Digit) :
  all_digits (digit_arg d) = true /\ typed (digit_arg d) /\
  number_string (digit_arg d) = true.
Proof. destruct d; repeat split. Qed.

Lemma all_digits_number_chars (s : string) :
  all_digits s = true -> number_chars s = true.
Proof.
  induction s as [| c s IH]; [trivial |]. cbn. intros H.
  apply andb_true_iff in H as [Hc Hs]. unfold number_char.
  now rewrite Hc, IH.
Qed.

Lemma number_string_app (a b : string) :
  number_string a = true -> number_chars b = true ->
  number_string (a ++ b) = true.
Proof.
  intros Ha Hb. apply JSFacts.number_string_iff in Ha as [Hn Hc].
  apply JSFacts.number_string_iff. split.
  - now apply JSFacts.app_nonempty_l.
  - now rewrite JSFacts.number_chars_app, Hc, Hb.
Qed.

(** Every button leaves on the display a string that is not empty and made
    of number characters. *)
Lemma click_number_string (host : Host) (now : Z) (b : Button) (s : State) :
  number_string (display s) = true ->
  number_string (display (fst (click host now b s))) = true.
Proof.
  intros Hs. destruct b; cbn [click fst]; try exact Hs; try reflexivity.
  - destruct (digit_arg_digits d) as (Hd & _ & Hn).
    unfold inputNumber. destruct (waitingForOperand s); cbn; [exact Hn |].
    destruct (display s =? "0")%string; [exact Hn |].
    apply number_string_app; [exact Hs |].
    now apply all_digits_number_chars.
  - unfold inputDecimal. destruct (waitingForOperand s); [reflexivity |].
    destruct (no_dot (display s)); [| exact Hs].
    now apply number_string_app.
  - unfold performOperation. destruct (previousValue s); [| exact Hs].
    destruct (truthy_str (operation s)); [| exact Hs].
    apply JSFacts.Number_toString_number_string.
  - unfold performScientificOperation.
    destruct (scientific host (function_arg f) (angleMode s)
                (parseFloat (display s))); try exact Hs.
    apply JSFacts.Number_toString_number_string.
  - unfold performEquals. destruct (previousValue s); [| exact Hs].
    destruct (truthy_str (operation s)); [| exact Hs].
    apply JSFacts.Number_toString_number_string.
  - cbn. apply JSFacts.number_string_iff in Hs as [_ Hc].
    pose proof (JSFacts.number_chars_slice _ Hc) as H.
    now destruct (slice_0_m1 (display s)).
  - apply JSFacts.Number_toString_number_string.
  - apply JSFacts.Number_toString_number_string.
Qed.

(** The typing buttons keep a typed numeral on the display. *)
Lemma click_typed (host : Host) (now : Z) (b : Button) (s : State) :
  typing_button b = true ->
  typed (display s) -> typed (display (fst (click host now b s))).
Proof.
  intros Hb Hs. destruct b; try discriminate Hb; cbn [click fst];
    try exact Hs; try (now split).
  - destruct (digit_arg_digits d) as (Hd & Ht & _).
    unfold inputNumber. destruct (waitingForOperand s); cbn; [exact Ht |].
    destruct (display s =? "0")%string; [exact Ht |].
    now apply JSFacts.typed_app_digit.
  - unfold inputDecimal. destruct (waitingForOperand s); [now split |].
    destruct (no_dot (display s)) eqn:E; [| exact Hs].
    now apply JSFacts.typed_app_point.
  - now apply JSFacts.typed_slice.
Qed.

Lemma run_typed (host : Host) (events : list (Z * Button)) (s : State) :
  forallb (fun e => typing_button (snd e)) events = true ->
  typed (display s) -> typed (display (fst (run host events s))).
Proof.
  revert s. induction events as [| [now b] rest IH]; intros s Hb Hs.
  - exact Hs.
  - cbn in Hb. apply andb_true_iff in Hb as [Hb Hr].
    specialize (IH _ Hr (click_typed host now b s Hb Hs)). cbn [run].
    destruct (click host now b s) as [s1 f1]. cbn [fst] in IH.
    now destruct (run host rest s1).
Qed.

(** Every button leaves on the display at most one decimal point, a minus
    sign only in front or right after an [e], and a plus sign only right
    after an [e]. *)
Lemma click_display_shape (host : Host) (now : Z) (b : Button) (s : State) :
  (count_points (display s) <= 1)%nat /\ signs_placed (display s) = true ->
  (count_points (display (fst (click host now b s))) <= 1)%nat /\
  signs_placed (display (fst (click host now b s))) = true.
Proof.
  intros [Hp Hs].
  assert (K : (count_points "0" <= 1)%nat /\ signs_placed "0" = true)
    by (cbn; split; [lia | reflexivity]).
  destruct b; cbn [click fst]; try (split; assumption); try exact K;
    try apply JSFacts.Number_toString_shape.
  - destruct (digit_arg_digits d) as (Hd & _ & _).
    destruct (JSFacts.all_digits_plain _ Hd) as [Dp Ds].
    assert (D : (count_points (digit_arg d) <= 1)%nat /\
                signs_placed (digit_arg d) = true)
      by (destruct d; cbn; split; (lia || reflexivity)).
    unfold inputNumber. destruct (waitingForOperand s); cbn; [exact D |].
    destruct (display s =? "0")%string; [exact D |]. split.
    + rewrite JSFacts.count_points_app, Dp. lia.
    + now apply JSFacts.signs_placed_app.
  - unfold inputDecimal.
    destruct (waitingForOperand s); [cbn; split; [lia | reflexivity] |].
    destruct (no_dot (display s)) eqn:E; [| split; assumption].
    apply JSFacts.count_points_no_dot in E.
    cbn [display setDisplay]. split.
    + rewrite JSFacts.count_points_app, E. cbn. lia.
    + now apply JSFacts.signs_placed_app.
  - unfold performOperation. destruct (previousValue s); [| split; assumption].
    destruct (truthy_str (operation s)); [| split; assumption].
    apply JSFacts.Number_toString_shape.
  - unfold performScientificOperation.
    destruct (scientific host (function_arg f) (angleMode s)
                (parseFloat (display s))); try (split; assumption).
    apply JSFacts.Number_toString_shape.
  - unfold performEquals. destruct (previousValue s); [| split; assumption].
    destruct (truthy_str (operation s)); [| split; assumption].
    apply JSFacts.Number_toString_shape.
  - cbn [backspace display setDisplay].
    pose proof (JSFacts.count_points_slice (display s)) as Cp.
    pose proof (JSFacts.signs_placed_slice _ Hs) as Cs.
    destruct (slice_0_m1 (display s)); [exact K |].
    cbn [str_or_else]. split; [lia | exact Cs].
Qed.

(** C5, as the code has it. In every state of a session the display is a
    string that is not empty and made of the characters of number strings,
    with at most one decimal point, a minus sign only in front or right
    after an [e] and a plus sign only right after an [e]; it is a decimal
    numeral as long as only the typing buttons were used. *)
Theorem display_number_string (host : Host) :
  (forall s, reachable host s ->
     number_string (display s) = true /\
     (count_points (display s) <= 1)%nat /\
     signs_placed (display s) = true) /\
  (forall events,
      forallb (fun e => typing_button (snd e)) events = true ->
      decimal_numeral (display (state_after host events)) = true).
Proof.
  split.
  - induction 1 as [| now b s _ (IH1 & IH2 & IH3)].
    + cbn. repeat split. lia.
    + split; [now apply click_number_string |].
      apply click_display_shape. now split.
  - intros events Hb. apply JSFacts.typed_decimal_numeral.
    apply run_typed; [exact Hb | now split].
Qed.

Lemma display_number_string_witness :
  (number_string (display (press example_host [Num D5; PlusMinus; Fn Sqrt]))
   = true /\
   (count_points (display (press example_host [Num D5; PlusMinus; Fn Sqrt]))
    <= 1)%nat /\
   signs_placed (display (press example_host [Num D5; PlusMinus; Fn Sqrt]))
   = true) /\
  decimal_numeral
    (display (state_after example_host
                [(0, Num D1); (1, Point); (2, Num D5); (3, Backspace)]))
  = true.
Proof.
  split.
  - apply (proj1 (display_number_string example_host)).
    apply reachable_press.
  - apply (proj2 (display_number_string example_host)). reflexivity.
Defined.

(** After the 1/x button in the initial state the display is ["Infinity"],
    which is no decimal numeral. *)
Lemma display_Infinity :
  reachable example_host (press example_host [Fn Reciprocal]) /\
  display (press example_host [Fn Reciprocal]) = "Infinity" /\
  decimal_numeral (display (press example_host [Fn Reciprocal])) = false.
Proof.
  split; [apply reachable_press |]. split; vm_compute; reflexivity.
Qed.

End CalculatorFacts.

(* ================================================================= *)
(** * Properties of the Convex functions *)

Module ConvexFacts.
Import Convex.
Local Open Scope list_scope.

Lemma by_user_app (u : string) (t1 t2 : Table) :
  by_user u (t1 ++ t2) = (by_user u t1 ++ by_user u t2)%list.
Proof. apply filter_app. Qed.

(** What one call adds to the documents of [u]. *)
Lemma by_user_call (u : string) (t : Table)
  (c : option string * string * string) :
  u <> "" ->
  by_user u (call t c) = (by_user u t ++ docs_of u [c])%list.
Proof.
  intros Hu. destruct c as [[caller expression] result]. unfold call, docs_of.
  cbn [flat_map]. rewrite app_nil_r.
  unfold saveCalculation, getAuthUserId. cbn [auth db].
  destruct caller as [[| c v] |].
  - destruct u; [congruence |]. cbn. now rewrite app_nil_r.
  - unfold insert. rewrite by_user_app. cbn [by_user filter userId].
    destruct (String c v =? u)%string eqn:E.
    + apply String.eqb_eq in E. now subst u.
    + reflexivity.
  - now rewrite app_nil_r.
Qed.

Lemma docs_of_cons (u : string) (c : option string * string * string)
  (cs : list (option string * string * string)) :
  docs_of u (c :: cs) = (docs_of u [c] ++ docs_of u cs)%list.
Proof. unfold docs_of. cbn [flat_map]. now rewrite app_nil_r. Qed.

Lemma by_user_calls (u : string)
  (cs : list (option string * string * string)) (t : Table) :
  u <> "" ->
  by_user u (calls cs t) = (by_user u t ++ docs_of u cs)%list.
Proof.
  intros Hu. revert t. induction cs as [| c cs IH]; intros t.
  - cbn. now rewrite app_nil_r.
  - cbn [calls fold_left]. fold (calls cs (call t c)).
    rewrite IH, (by_user_call u t c Hu), (docs_of_cons u c cs).
    now rewrite app_assoc.
Qed.

Lemma getHistory_length (ctx : Ctx) : (List.length (getHistory ctx) <= 20)%nat.
Proof.
  unfold getHistory.
  destruct (getAuthUserId ctx) as [[| c v] |]; cbn [List.length]; try lia.
  unfold take. rewrite length_firstn. lia.
Qed.

(** C6. If the table holds nothing of the owner [u] and then any calls of
    the mutation are made, at most 20 of them by [u], [getHistory] returns
    the documents of exactly the calls of [u], newest first; and it never
    returns more than 20 documents. *)
Theorem getHistory_newest_first (u : string) (t0 : Table)
  (cs : list (option string * string * string)) :
  u <> "" ->
  by_user u t0 = [] ->
  (List.length (docs_of u cs) <= 20)%nat ->
  getHistory {| auth := Some u; db := calls cs t0 |} = rev (docs_of u cs) /\
  forall ctx, (List.length (getHistory ctx) <= 20)%nat.
Proof.
  intros Hu H0 Hn. split; [| apply getHistory_length].
  unfold getHistory, getAuthUserId. cbn [auth db].
  destruct u as [| c v]; [congruence |].
  rewrite (by_user_calls (String c v) cs t0 Hu), H0. cbn [app].
  unfold take, order_desc. apply firstn_all2. now rewrite length_rev.
Qed.

Lemma getHistory_newest_first_witness :
  getHistory
    {| auth := Some "alice";
       db := calls [(Some "alice", "7 + 3", "10"); (Some "bob", "π", "3.14");
                    (None, "e", "2.71"); (Some "alice", "5!", "120")]
                   [{| userId := "bob"; expression := "1/(4)";
                       result := "0.25" |}] |}
  = [{| userId := "alice"; expression := "5!"; result := "120" |};
     {| userId := "alice"; expression := "7 + 3"; result := "10" |}].
Proof.
  refine (proj1 (getHistory_newest_first "alice" _ _ _ _ _)).
  - discriminate.
  - reflexivity.
  - cbn. lia.
Defined.

(** The two functions with and without an identity. *)
Lemma saveCalculation_unauthenticated (t : Table) (expression result : string) :
  saveCalculation {| auth := None; db := t |} expression result
  = Thrown "User must be authenticated".
Proof. reflexivity. Qed.

Lemma getHistory_unauthenticated (t : Table) :
  getHistory {| auth := None; db := t |} = [].
Proof. reflexivity. Qed.

Lemma saveCalculation_authenticated (u : string) (t : Table)
  (expression result : string) :
  u <> "" ->
  saveCalculation {| auth := Some u; db := t |} expression result
  = Done (t ++ [{| userId := u; expression := expression;
                   result := result |}])%list.
Proof. destruct u; [congruence | reflexivity]. Qed.

End ConvexFacts.

(* ================================================================= *)
(** * Properties of the component wired to its backend *)

Module AppFacts.
Import Calculator Convex App.
Local Open Scope list_scope.

Lemma perform_ui (user : option string) (e : Effect) (w : World) :
  ui (perform user e w) = ui w.
Proof.
  destruct e; cbn; try reflexivity.
  now destruct (saveCalculation _ _ _).
Qed.

Lemma perform_all_ui (user : option string) (effects : list Effect)
  (w : World) :
  ui (fold_left (fun w e => perform user e w) effects w) = ui w.
Proof.
  revert w. induction effects as [| e rest IH]; intros w; cbn.
  - reflexivity.
  - now rewrite IH, perform_ui.
Qed.

(** The component state after a click does not depend on the backend. *)
Lemma click_ui (host : Host) (user : option string) (now : Z) (b : Button)
  (w : World) :
  ui (App.click host user now b w) = fst (Calculator.click host now b (ui w)).
Proof.
  unfold App.click. destruct (Calculator.click host now b (ui w)) as [s f].
  now rewrite perform_all_ui.
Qed.

Lemma perform_all_table_unauthenticated (effects : list Effect) (w : World) :
  table (fold_left (fun w e => perform None e w) effects w) = table w.
Proof.
  revert w. induction effects as [| e rest IH]; intros w; cbn.
  - reflexivity.
  - rewrite IH. now destruct e.
Qed.

Lemma perform_all_table (u : string) (effects : list Effect) (w : World) :
  u <> ""%string ->
  table (fold_left (fun w e => perform (Some u) e w) effects w)
  = table w ++ saved_docs u effects.
Proof.
  intros Hu. revert w. induction effects as [| e rest IH]; intros w.
  - cbn. now rewrite app_nil_r.
  - cbn [fold_left]. rewrite IH. unfold saved_docs. cbn [flat_map].
    destruct e; cbn [perform]; rewrite ?app_nil_l; try reflexivity.
    rewrite (ConvexFacts.saveCalculation_authenticated u _ _ _ Hu).
    cbn [table]. now rewrite <- app_assoc.
Qed.

Lemma saved_docs_app (u : string) (e1 e2 : list Effect) :
  saved_docs u (e1 ++ e2) = saved_docs u e1 ++ saved_docs u e2.
Proof. apply flat_map_app. Qed.

Lemma saved_docs_length (u : string) (effects : list Effect) :
  List.length (saved_docs u effects) = List.length (saves effects).
Proof.
  unfold saved_docs, saves.
  induction effects as [| e rest IH]; [reflexivity |].
  destruct e; cbn; now rewrite ?IH.
Qed.

Lemma run_ui (host : Host) (user : option string)
  (events : list (Z * Button)) (w : World) :
  ui (App.run host user events w) = fst (Calculator.run host events (ui w)).
Proof.
  revert w. induction events as [| [now b] rest IH]; intros w; cbn.
  - reflexivity.
  - rewrite IH, click_ui.
    destruct (Calculator.click host now b (ui w)) as [s1 f1]. cbn.
    now destruct (Calculator.run host rest s1).
Qed.

(** With an identity every completed calculation of a session is in the
    table, in order. *)
Lemma run_table (host : Host) (u : string) (events : list (Z * Button))
  (w : World) :
  u <> ""%string ->
  table (App.run host (Some u) events w)
  = table w ++ saved_docs u (snd (Calculator.run host events (ui w))).
Proof.
  intros Hu. revert w. induction events as [| [now b] rest IH]; intros w.
  - cbn. now rewrite app_nil_r.
  - cbn [App.run Calculator.run]. rewrite IH, click_ui.
    unfold App.click.
    destruct (Calculator.click host now b (ui w)) as [s1 f1]. cbn [fst].
    rewrite (perform_all_table u f1 _ Hu). cbn [table].
    destruct (Calculator.run host rest s1) as [s2 f2]. cbn [snd].
    now rewrite saved_docs_app, app_assoc.
Qed.

(** C7. Without an identity the mutation throws and the query returns the
    empty list, not an error; the component state after a click is what the
    click alone gives, whoever is signed in, and the table is then
    untouched. With an identity the mutation appends the document whatever
    its two strings are, equal documents included. *)
Theorem unauthenticated_calls (host : Host) :
  (forall t expression result,
      saveCalculation {| auth := None; db := t |} expression result
      = Thrown "User must be authenticated") /\
  (forall t, getHistory {| auth := None; db := t |} = []) /\
  (forall user now b w,
      ui (App.click host user now b w)
      = fst (Calculator.click host now b (ui w))) /\
  (forall now b w, table (App.click host None now b w) = table w) /\
  (forall u t expression result,
      u <> ""%string ->
      let doc := {| userId := u; expression := expression;
                    result := result |} in
      saveCalculation {| auth := Some u; db := t |} expression result
      = Done (t ++ [doc]) /\
      calls [(Some u, expression, result); (Some u, expression, result)] t
      = t ++ [doc; doc]).
Proof.
  split; [reflexivity |]. split; [reflexivity |].
  split; [apply click_ui |]. split.
  - intros now b w. unfold App.click.
    destruct (Calculator.click host now b (ui w)) as [s f].
    now rewrite perform_all_table_unauthenticated.
  - intros u t expression result Hu doc. split.
    + now apply ConvexFacts.saveCalculation_authenticated.
    + unfold calls. cbn [fold_left call].
      rewrite !(ConvexFacts.saveCalculation_authenticated u _ _ _ Hu).
      now rewrite <- app_assoc.
Qed.

Lemma unauthenticated_calls_witness :
  saveCalculation {| auth := Some "alice"%string; db := [] |} "" "not a number"
  = Done [{| userId := "alice"; expression := ""; result := "not a number" |}].
Proof.
  pose proof (unauthenticated_calls example_host) as (_ & _ & _ & _ & H).
  exact (proj1 (H "alice"%string [] ""%string "not a number"%string
                  ltac:(discriminate))).
Defined.

(** C10. The local history never holds more than 10 entries: a completed
    calculation puts its entry before the first 9 of the list, so after any
    clicks that leave the history button alone the list has
    [min(completed calculations, 10)] entries; the table keeps a document
    for every one of them, and the query shows at most 20. *)
Theorem local_history_bound (host : Host) (events : list (Z * Button)) :
  let s := fst (Calculator.run host events initial) in
  let completed := saves (snd (Calculator.run host events initial)) in
  (forall now expression result s0,
      history (fst (addToHistory now expression result s0))
      = {| Calculator.expression := expression;
           Calculator.result := result; timestamp := now |}
          :: firstn 9 (history s0)) /\
  (List.length (history s) <= 10)%nat /\
  (~ In HistoryClear (map snd events) ->
   List.length (history s) = Nat.min (List.length completed) 10) /\
  (forall u, u <> ""%string ->
     let w := App.run host (Some u) events start in
     ui w = s /\
     List.length (table w) = List.length completed /\
     (List.length (calculationHistory (Some u) w) <= 20)%nat).
Proof.
  intros s completed. split; [reflexivity |]. split; [| split].
  - apply CalculatorFacts.run_history_le. cbn. lia.
  - intros Hc. unfold s, completed.
    rewrite (CalculatorFacts.run_history_length host events initial Hc);
      cbn; [reflexivity | lia].
  - intros u Hu w. split; [apply run_ui |]. split.
    + unfold w. rewrite (run_table host u events start Hu).
      cbn [table start app].
      apply saved_docs_length.
    + apply ConvexFacts.getHistory_length.
Qed.

Lemma local_history_bound_witness :
  List.length
    (history (fst (Calculator.run example_host (repeat (0, Fn Pi) 11)
                     initial))) = 10%nat /\
  List.length
    (table (App.run example_host (Some "alice"%string)
              (repeat (0, Fn Pi) 11) start)) = 11%nat.
Proof.
  destruct (local_history_bound example_host (repeat (0, Fn Pi) 11))
    as (_ & _ & Hmin & Hstore).
  split.
  - rewrite Hmin; [reflexivity |].
    cbn. intuition discriminate.
  - destruct (Hstore "alice"%string ltac:(discriminate)) as (_ & H & _).
    rewrite H. reflexivity.
Defined.

End AppFacts.

(* ================================================================= *)
(** * Typing numbers and whole calculations *)

Module TypingFacts.
Import JS Calculator.

(** ** Reading a run of digits *)

Lemma take_digits_all (s : string) (acc cnt : Z) :
  all_digits s = true ->
  take_digits s acc cnt
  = (digits_of_string s acc, cnt + Z.of_nat (String.length s), "").
Proof.
  revert acc cnt. induction s as [| c s IH]; intros acc cnt H.
  - cbn [take_digits digits_of_string String.length Z.of_nat].
    now rewrite Z.add_0_r.
  - cbn in H. apply andb_true_iff in H as [Hc Hs].
    cbn [take_digits digits_of_string String.length]. rewrite Hc, (IH _ _ Hs).
    f_equal. f_equal. lia.
Qed.

Lemma string_length_app (a b : string) :
  String.length (a ++ b) = (String.length a + String.length b)%nat.
Proof. induction a as [| c a IH]; cbn; congruence. Qed.

Lemma digits_of_string_app (a b : string) (acc : Z) :
  digits_of_string (a ++ b) acc = digits_of_string b (digits_of_string a acc).
Proof. revert acc. induction a as [| c a IH]; intros acc; cbn; auto. Qed.

Lemma digit_value_nonneg (c : ascii) : is_digit c = true -> 0 <= digit_value c.
Proof.
  unfold is_digit, digit_value. intros H.
  apply andb_true_iff in H as [H _]. apply N.leb_le in H. lia.
Qed.

Lemma digits_of_string_nonneg (s : string) (acc : Z) :
  all_digits s = true -> 0 <= acc -> 0 <= digits_of_string s acc.
Proof.
  revert acc. induction s as [| c s IH]; intros acc H Ha; [exact Ha |].
  cbn in H. apply andb_true_iff in H as [Hc Hs]. cbn [digits_of_string].
  apply IH; [exact Hs |]. pose proof (digit_value_nonneg c Hc). lia.
Qed.

Lemma digits_of_digit_arg (d : Digit) (acc : Z) :
  digits_of_string (digit_arg d) acc = 10 * acc + digit_Z d.
Proof.
  destruct d; cbn [digits_of_string digit_arg digit_Z]; f_equal.
Qed.

(** A string that starts with a digit is read as an unsigned literal. *)
Lemma parseFloat_digit_start (c : ascii) (r : string) :
  is_digit c = true -> parseFloat (String c r) = parse_unsigned false (String c r).
Proof.
  destruct c as [[] [] [] [] [] [] [] []]; intros H;
    try discriminate H; reflexivity.
Qed.

Lemma signed_value_integer (v : Z) :
  0 <= v -> signed_value false v 0 = number_of_Z v.
Proof.
  intros H. destruct v as [| p | p]; [reflexivity | | lia].
  unfold signed_value, round_decimal, number_of_Z.
  cbn [binary_normalize]. do 2 f_equal.
  change (10 ^ 0) with 1. rewrite Z.mul_1_r. reflexivity.
Qed.

(** [parseFloat] of a non-empty run of digits is the double nearest to the
    integer they spell. *)
Lemma parseFloat_digits (s : string) :
  s <> "" -> all_digits s = true ->
  parseFloat s = number_of_Z (digits_of_string s 0).
Proof.
  intros Hn H. destruct s as [| c r]; [congruence |].
  pose proof H as H'. cbn in H'. apply andb_true_iff in H' as [Hc _].
  rewrite (parseFloat_digit_start c r Hc). unfold parse_unsigned.
  rewrite (take_digits_all _ 0 0 H). cbn [String.length].
  replace (0 + Z.of_nat (S (String.length r)) =? 0) with false
    by (symmetry; apply Z.eqb_neq; lia).
  cbn [take_exponent]. apply signed_value_integer.
  apply digits_of_string_nonneg; [exact H | lia].
Qed.

(** ** Typing digits *)

Lemma type_digits_app (ds1 ds2 : list Digit) (s : State) :
  type_digits (ds1 ++ ds2) s = type_digits ds2 (type_digits ds1 s).
Proof. apply fold_left_app. Qed.

(** Typing touches the display and the waiting flag only. *)
Lemma type_digits_frame (ds : list Digit) (s : State) :
  previousValue (type_digits ds s) = previousValue s /\
  operation (type_digits ds s) = operation s /\
  memory (type_digits ds s) = memory s /\
  history (type_digits ds s) = history s /\
  angleMode (type_digits ds s) = angleMode s.
Proof.
  revert s. induction ds as [| d ds IH]; intros s; [repeat split |].
  change (type_digits (d :: ds) s)
    with (type_digits ds (inputNumber (digit_arg d) s)).
  destruct (IH (inputNumber (digit_arg d) s)) as (-> & -> & -> & -> & ->).
  unfold inputNumber. destruct (waitingForOperand s); repeat split.
Qed.

(** One more digit after a run of digits that spells [v]. *)
Lemma inputNumber_digits (d : Digit) (s : State) :
  waitingForOperand s = false ->
  display s <> "" ->
  all_digits (display s) = true ->
  let s' := inputNumber (digit_arg d) s in
  waitingForOperand s' = false /\
  display s' <> "" /\
  all_digits (display s') = true /\
  digits_of_string (display s') 0
  = 10 * digits_of_string (display s) 0 + digit_Z d.
Proof.
  intros Hw Hn Ha. unfold inputNumber. rewrite Hw. cbn [display setDisplay].
  destruct (CalculatorFacts.digit_arg_digits d) as (Hd & _ & _).
  destruct (String.eqb_spec (display s) "0") as [E | E].
  - rewrite E. repeat split; [exact Hw | now destruct d | exact Hd |].
    apply digits_of_digit_arg.
  - repeat split.
    + exact Hw.
    + now apply JSFacts.app_nonempty_l.
    + now rewrite JSFacts.all_digits_app, Ha, Hd.
    + now rewrite digits_of_string_app, digits_of_digit_arg.
Qed.

Lemma type_digits_digits (ds : list Digit) (s : State) :
  waitingForOperand s = false ->
  display s <> "" ->
  all_digits (display s) = true ->
  let s' := type_digits ds s in
  waitingForOperand s' = false /\
  display s' <> "" /\
  all_digits (display s') = true /\
  digits_of_string (display s') 0
  = fold_left (fun acc d => 10 * acc + digit_Z d) ds
      (digits_of_string (display s) 0).
Proof.
  revert s. induction ds as [| d ds IH]; intros s Hw Hn Ha.
  - repeat split; assumption.
  - destruct (inputNumber_digits d s Hw Hn Ha) as (Hw' & Hn' & Ha' & Hv).
    change (type_digits (d :: ds) s)
      with (type_digits ds (inputNumber (digit_arg d) s)).
    cbn [fold_left]. rewrite <- Hv. now apply IH.
Qed.

(** The first digit typed while the calculator waits for an operand. *)
Lemma inputNumber_waiting (d : Digit) (s : State) :
  waitingForOperand s = true ->
  let s' := inputNumber (digit_arg d) s in
  waitingForOperand s' = false /\
  display s' = digit_arg d.
Proof. intros Hw. unfold inputNumber. rewrite Hw. now split. Qed.

Lemma type_digits_parse (ds : list Digit) (s : State) :
  ds <> [] ->
  waitingForOperand s = true \/
  (waitingForOperand s = false /\ display s = "0") ->
  waitingForOperand (type_digits ds s) = false /\
  parseFloat (display (type_digits ds s)) = number_of_Z (digits_value ds).
Proof.
  intros Hds Hs.
  assert (G : exists s0 ds0 v0,
             type_digits ds s = type_digits ds0 s0 /\
             waitingForOperand s0 = false /\ display s0 <> "" /\
             all_digits (display s0) = true /\
             digits_of_string (display s0) 0 = v0 /\
             digits_value ds = fold_left (fun acc d => 10 * acc + digit_Z d)
                                 ds0 v0).
  { destruct Hs as [Hw | [Hw Hd]].
    - destruct ds as [| d ds]; [congruence |].
      destruct (inputNumber_waiting d s Hw) as [Hw' Hd'].
      destruct (CalculatorFacts.digit_arg_digits d) as (Ha & _ & _).
      exists (inputNumber (digit_arg d) s), ds, (digit_Z d).
      rewrite Hd'. repeat split; try assumption.
      + now destruct d.
      + now destruct d.
    - exists s, ds, 0. rewrite Hd. repeat split; try assumption.
      discriminate. }
  destruct G as (s0 & ds0 & v0 & -> & Hw & Hn & Ha & Hv & ->).
  destruct (type_digits_digits ds0 s0 Hw Hn Ha) as (Hw' & Hn' & Ha' & Hv').
  split; [exact Hw' |].
  rewrite (parseFloat_digits _ Hn' Ha'), Hv', Hv. reflexivity.
Qed.

Lemma type_digits_showHistory (ds : list Digit) (s : State) :
  showHistory (type_digits ds s) = showHistory s.
Proof.
  revert s. induction ds as [| d ds IH]; intros s; [reflexivity |].
  change (type_digits (d :: ds) s)
    with (type_digits ds (inputNumber (digit_arg d) s)).
  rewrite IH. unfold inputNumber. now destruct (waitingForOperand s).
Qed.

Lemma string_app_nil (a : string) : a ++ "" = a.
Proof. induction a as [| c a IH]; cbn; congruence. Qed.

(** Digits typed after a display other than ["0"] are appended. *)
Lemma type_digits_append (ds : list Digit) (s : State) :
  waitingForOperand s = false ->
  display s <> "" ->
  display s <> "0" ->
  display (type_digits ds s) = display s ++ digits_string ds.
Proof.
  revert s. induction ds as [| d ds IH]; intros s Hw Hn Hz.
  - cbn. now rewrite string_app_nil.
  - change (type_digits (d :: ds) s)
      with (type_digits ds (inputNumber (digit_arg d) s)).
    assert (E : inputNumber (digit_arg d) s
                = setDisplay (display s ++ digit_arg d) s).
    { unfold inputNumber. rewrite Hw.
      now destruct (String.eqb_spec (display s) "0"). }
    rewrite E, IH; cbn [waitingForOperand display setDisplay].
    + cbn [digits_string]. apply JSFacts.string_app_assoc.
    + exact Hw.
    + now apply JSFacts.app_nonempty_l.
    + destruct (display s) as [| c [| c' r]]; [congruence | |];
        destruct d; discriminate.
Qed.

(** Digits typed on the display ["0"]. *)
Lemma type_digits_zero (ds : list Digit) (s : State) :
  waitingForOperand s = false ->
  display s = "0" ->
  display (type_digits ds s) = shown_digits ds.
Proof.
  revert s. induction ds as [| d ds IH]; intros s Hw Hz; [exact Hz |].
  change (type_digits (d :: ds) s)
    with (type_digits ds (inputNumber (digit_arg d) s)).
  assert (E : inputNumber (digit_arg d) s = setDisplay (digit_arg d) s).
  { unfold inputNumber. now rewrite Hw, Hz. }
  rewrite E.
  destruct d;
    try (rewrite type_digits_append;
         [reflexivity | exact Hw | discriminate | discriminate]).
  now apply IH.
Qed.

Lemma type_digits_shown (ds : list Digit) (s : State) :
  ds <> [] ->
  waitingForOperand s = true \/
  (waitingForOperand s = false /\ display s = "0") ->
  display (type_digits ds s) = shown_digits ds.
Proof.
  intros Hds [Hw | [Hw Hz]]; [| now apply type_digits_zero].
  destruct ds as [| d ds]; [congruence |].
  change (type_digits (d :: ds) s)
    with (type_digits ds (inputNumber (digit_arg d) s)).
  assert (E : inputNumber (digit_arg d) s
              = setWaitingForOperand false (setDisplay (digit_arg d) s)).
  { unfold inputNumber. now rewrite Hw. }
  rewrite E.
  destruct d;
    try (rewrite type_digits_append;
         [reflexivity | reflexivity | discriminate | discriminate]).
  exact (type_digits_zero ds
           (setWaitingForOperand false (setDisplay (digit_arg D0) s))
           eq_refl eq_refl).
Qed.

(** X1. Digits typed while the calculator waits for an operand, or on the
    display ["0"], replace the display: it shows the digits without their
    leading zeros, and [parseFloat] reads from it the double nearest to the
    decimal integer they spell; no cell but the display and the waiting
    flag changes. *)
Theorem typed_number (ds : list Digit) (s : State) :
  ds <> [] ->
  waitingForOperand s = true \/
  (waitingForOperand s = false /\ display s = "0") ->
  let s' := type_digits ds s in
  display s' = shown_digits ds /\
  parseFloat (display s') = number_of_Z (digits_value ds) /\
  waitingForOperand s' = false /\
  previousValue s' = previousValue s /\
  operation s' = operation s /\
  memory s' = memory s /\
  history s' = history s /\
  showHistory s' = showHistory s /\
  angleMode s' = angleMode s.
Proof.
  intros Hds Hs. destruct (type_digits_parse ds s Hds Hs) as [Hw Hp].
  destruct (type_digits_frame ds s) as (F1 & F2 & F3 & F4 & F5).
  pose proof (type_digits_showHistory ds s) as F6.
  pose proof (type_digits_shown ds s Hds Hs) as Hd.
  repeat split; assumption.
Qed.

Lemma typed_number_witness :
  display (type_digits [D0; D4; D2] initial) = "42" /\
  parseFloat (display (type_digits [D0; D4; D2] initial)) = 42%float.
Proof.
  destruct (typed_number [D0; D4; D2] initial ltac:(discriminate)
              (or_intror (conj eq_refl eq_refl)))
    as (H1 & H2 & _).
  split; [exact H1 | exact H2].
Defined.

(** ** A whole calculation *)

Lemma run_digits (host : Host) (ds : list Digit) (s : State) :
  run host (map (fun b => (0, b)) (map Num ds)) s = (type_digits ds s, []).
Proof.
  revert s. induction ds as [| d ds IH]; intros s; [reflexivity |].
  cbn [map run click]. rewrite IH. reflexivity.
Qed.

Lemma operator_arg_nonempty (o : Operator) :
  truthy_str (Some (operator_arg o)) = true.
Proof. now destruct o. Qed.

(** The keys [ds1], operator, [ds2], = from the initial state. *)
Lemma run_calculation (host : Host) (ds1 ds2 : list Digit) (o : Operator) :
  ds2 <> [] ->
  let n1 := number_of_Z (digits_value ds1) in
  let n2 := number_of_Z (digits_value ds2) in
  let r := Number_toString (calculate host n1 n2 (operator_arg o)) in
  let out :=
    run host
      (map (fun b => (0, b))
         (map Num ds1 ++ [OpKey o] ++ map Num ds2 ++ [Equals])%list)
      initial in
  display (fst out) = r /\
  previousValue (fst out) = None /\
  operation (fst out) = None /\
  waitingForOperand (fst out) = true /\
  snd out
  = [SaveCalculation
       (Number_toString n1 ++ " " ++ operator_arg o ++ " " ++
        Number_toString n2) r].
Proof.
  intros Hds n1 n2 r out. unfold out.
  rewrite !map_app, CalculatorFacts.run_app, run_digits. cbn [fst snd app].
  set (s1 := type_digits ds1 initial).
  assert (P1 : parseFloat (display s1) = n1).
  { destruct ds1 as [| d ds1]; [reflexivity |].
    apply (type_digits_parse (d :: ds1) initial); [discriminate |].
    right. now split. }
  destruct (type_digits_frame ds1 initial) as (F1 & F2 & _).
  fold s1 in F1, F2. cbn in F1, F2.
  rewrite CalculatorFacts.run_app. cbn [map run click fst snd app].
  set (s2 := performOperation host (operator_arg o) s1).
  assert (S2 : previousValue s2 = Some n1 /\
               operation s2 = Some (operator_arg o) /\
               waitingForOperand s2 = true).
  { unfold s2, performOperation. rewrite F1, P1. now cbn. }
  destruct S2 as (Q1 & Q2 & Q3).
  rewrite CalculatorFacts.run_app, run_digits. cbn [map run click fst snd app].
  set (s3 := type_digits ds2 s2).
  destruct (type_digits_parse ds2 s2 Hds (or_introl Q3)) as [W3 P3].
  destruct (type_digits_frame ds2 s2) as (G1 & G2 & _).
  fold s3 in W3, P3, G1, G2. rewrite Q1 in G1. rewrite Q2 in G2.
  unfold performEquals.
  rewrite G1, G2, (operator_arg_nonempty o), P3. cbn.
  repeat split.
Qed.

(** X2. From the initial state, typing the digits [ds1], an operator, the
    digits [ds2] and = shows [calculate(n1, n2, op)] for the integers the
    digits spell, clears the staged value and the operator, and emits one
    record ["n1 op n2"] with that result. *)
Theorem typed_calculation (host : Host) (ds1 ds2 : list Digit) (o : Operator) :
  ds2 <> [] ->
  let keys :=
    (map Num ds1 ++ [OpKey o] ++ map Num ds2 ++ [Equals])%list in
  let n1 := number_of_Z (digits_value ds1) in
  let n2 := number_of_Z (digits_value ds2) in
  let r := Number_toString (calculate host n1 n2 (operator_arg o)) in
  display (press host keys) = r /\
  previousValue (press host keys) = None /\
  operation (press host keys) = None /\
  snd (run host (map (fun b => (0, b)) keys) initial)
  = [SaveCalculation
       (Number_toString n1 ++ " " ++ operator_arg o ++ " " ++
        Number_toString n2) r].
Proof.
  intros Hds keys n1 n2 r.
  destruct (run_calculation host ds1 ds2 o Hds) as (H1 & H2 & H3 & _ & H5).
  repeat split; assumption.
Qed.

Lemma typed_calculation_witness :
  display (press example_host
             [Num D1; Num D2; OpKey Minus; Num D5; Num D0; Equals]) = "-38".
Proof.
  refine (proj1 (typed_calculation example_host [D1; D2] [D5; D0] Minus _)).
  discriminate.
Defined.

Lemma rem_zero (x : number) : rem x zero = nan /\ rem x neg_zero = nan.
Proof.
  unfold rem.
  change (Prim2SF zero) with (S754_zero false).
  change (Prim2SF neg_zero) with (S754_zero true).
  now destruct (Prim2SF x).
Qed.

(** X3. Whatever number is typed, dividing it by a typed 0 shows ["0"]
    and taking it modulo a typed 0 shows ["NaN"]: the zero test of [÷] has
    no counterpart in [mod]. *)
Theorem typed_zero_divisor (host : Host) (ds : list Digit) :
  display (press host (map Num ds ++ [OpKey Divide] ++ map Num [D0]
                         ++ [Equals])%list) = "0" /\
  display (press host (map Num ds ++ [OpKey Modulo] ++ map Num [D0]
                         ++ [Equals])%list) = "NaN".
Proof.
  split.
  - destruct (run_calculation host ds [D0] Divide) as (H & _);
      [discriminate |].
    unfold press, state_after. rewrite H. reflexivity.
  - destruct (run_calculation host ds [D0] Modulo) as (H & _);
      [discriminate |].
    unfold press, state_after. rewrite H.
    change (number_of_Z (digits_value [D0])) with zero.
    change (calculate host (number_of_Z (digits_value ds)) zero
              (operator_arg Modulo))
      with (rem (number_of_Z (digits_value ds)) zero).
    now rewrite (proj1 (rem_zero _)).
Qed.

End TypingFacts.

(* ================================================================= *)
(** * How the handlers compose *)

Module HandlerFacts.
Import JS Calculator.

(** ** The decimal point and backspace *)

Lemma no_dot_app_point (s : string) : no_dot (s ++ ".") = false.
Proof.
  induction s as [| c s IH]; [reflexivity |].
  cbn. now destruct (c =? ".")%char.
Qed.

(** X4. A second press of the decimal point changes nothing, in any
    state; a press on a display that has a point, when no operand is
    awaited, changes nothing either; and after a press the display has one
    point when it had none or an operand was awaited, and otherwise as many
    as before: the button never adds a point to one that is there. *)
Theorem inputDecimal_idempotent (s : State) :
  inputDecimal (inputDecimal s) = inputDecimal s /\
  (waitingForOperand s = false -> no_dot (display s) = false ->
   inputDecimal s = s) /\
  count_points (display (inputDecimal s))
  = (if waitingForOperand s then 1
     else Nat.max 1 (count_points (display s)))%nat.
Proof.
  split; [| split].
  - unfold inputDecimal at 2 3.
    destruct (waitingForOperand s) eqn:Hw; [reflexivity |].
    destruct (no_dot (display s)) eqn:Hd.
    + unfold inputDecimal. cbn [waitingForOperand display setDisplay].
      now rewrite Hw, no_dot_app_point.
    + unfold inputDecimal. now rewrite Hw, Hd.
  - intros Hw Hd. unfold inputDecimal. now rewrite Hw, Hd.
  - unfold inputDecimal.
    destruct (waitingForOperand s); [reflexivity |].
    destruct (no_dot (display s)) eqn:Hd.
    + apply JSFacts.count_points_no_dot in Hd.
      cbn [display setDisplay]. rewrite JSFacts.count_points_app, Hd.
      reflexivity.
    + assert (count_points (display s) <> 0%nat).
      { intros E. apply JSFacts.count_points_no_dot in E. congruence. }
      lia.
Qed.

Lemma inputDecimal_idempotent_witness :
  inputDecimal (press example_host [Num D1; Point; Num D5])
  = press example_host [Num D1; Point; Num D5].
Proof.
  apply (proj1 (proj2 (inputDecimal_idempotent
                         (press example_host [Num D1; Point; Num D5]))));
    reflexivity.
Defined.

Lemma slice_app_char (s : string) (c : ascii) :
  slice_0_m1 (s ++ String c "") = s.
Proof.
  induction s as [| a s IH]; [reflexivity |].
  cbn [append]. destruct s as [| b s].
  - reflexivity.
  - change (String a (slice_0_m1 (String b s ++ String c "")) = String a (String b s)).
    now rewrite IH.
Qed.

(** X5. While a number is being typed, backspace takes back the digit just
    typed: the state is the one before the digit, also when the digit had
    replaced the display ["0"]. *)
Theorem backspace_inputNumber (d : Digit) (s : State) :
  waitingForOperand s = false ->
  display s <> "" ->
  backspace (inputNumber (digit_arg d) s) = s.
Proof.
  intros Hw Hn. unfold inputNumber. rewrite Hw.
  unfold backspace. cbn [display setDisplay].
  assert (E : str_or_else
                (slice_0_m1
                   (if (display s =? "0")%string then digit_arg d
                    else display s ++ digit_arg d)) "0" = display s).
  { destruct (String.eqb_spec (display s) "0") as [E | E].
    - rewrite E. now destruct d.
    - assert (D : exists c, digit_arg d = String c "")
        by (destruct d; eexists; reflexivity).
      destruct D as [c ->]. rewrite slice_app_char.
      destruct (display s); [congruence | reflexivity]. }
  rewrite E. now destruct s.
Qed.

Lemma backspace_inputNumber_witness :
  backspace (inputNumber "7" (press example_host [Num D4; Point]))
  = press example_host [Num D4; Point].
Proof.
  apply (backspace_inputNumber D7 (press example_host [Num D4; Point])).
  - reflexivity.
  - discriminate.
Defined.

Lemma slice_last (c : ascii) (u : string) :
  exists x, String c u = slice_0_m1 (String c u) ++ String x "".
Proof.
  revert c. induction u as [| b u IH]; intros c.
  - now exists c.
  - destruct (IH b) as [x Hx]. exists x.
    change (slice_0_m1 (String c (String b u)))
      with (String c (slice_0_m1 (String b u))).
    cbn [append]. now rewrite <- Hx.
Qed.

(** X6. Backspace never leaves the display empty: a display of at most one
    character becomes ["0"], and a display of two or more loses exactly its
    last character. *)
Theorem backspace_display (s : State) :
  display (backspace s) <> "" /\
  ((String.length (display s) <= 1)%nat -> display (backspace s) = "0") /\
  ((2 <= String.length (display s))%nat ->
   S (String.length (display (backspace s))) = String.length (display s) /\
   exists c, display s = display (backspace s) ++ String c "").
Proof.
  unfold backspace. cbn [display setDisplay]. split; [| split].
  - destruct (slice_0_m1 (display s)); discriminate.
  - destruct (display s) as [| a [| b t]]; cbn; try reflexivity. lia.
  - generalize (display s). intros t H.
    destruct t as [| a [| b t]]; cbn in H; try lia.
    destruct (slice_last a (String b t)) as [x Hx].
    change (slice_0_m1 (String a (String b t)))
      with (String a (slice_0_m1 (String b t))) in *.
    cbn [str_or_else]. split; [| now exists x].
    apply (f_equal String.length) in Hx.
    rewrite TypingFacts.string_length_app in Hx. cbn [String.length] in *.
    lia.
Qed.

Lemma backspace_display_witness :
  display (backspace (press example_host [Num D5])) = "0" /\
  S (String.length (display (backspace (press example_host [Num D4; Point]))))
  = String.length (display (press example_host [Num D4; Point])).
Proof.
  split.
  - apply (proj1 (proj2 (backspace_display (press example_host [Num D5])))).
    vm_compute. repeat constructor.
  - apply (proj2 (proj2 (backspace_display
                           (press example_host [Num D4; Point])))).
    vm_compute. repeat constructor.
Defined.

(** ** Operators and equals *)

(** X7. A second operator pressed right after the first does not replace
    it: the first is applied to the operand and itself (7, +, × shows 14),
    and the second becomes the pending one. *)
Theorem performOperation_twice (host : Host) (op1 op2 : string) (s : State) :
  previousValue s = None ->
  op1 <> "" ->
  let x := parseFloat (display s) in
  let r := calculate host (or_else x zero) x op1 in
  let s' := performOperation host op2 (performOperation host op1 s) in
  display s' = Number_toString r /\
  previousValue s' = Some r /\
  operation s' = Some op2 /\
  waitingForOperand s' = true.
Proof.
  intros Hp Hop x r s'. unfold s', r, x.
  assert (E : performOperation host op1 s
              = setOperation (Some op1)
                  (setWaitingForOperand true
                     (setPreviousValue (Some (parseFloat (display s))) s))).
  { unfold performOperation. now rewrite Hp. }
  rewrite E.
  set (s1 := setOperation (Some op1)
               (setWaitingForOperand true
                  (setPreviousValue (Some (parseFloat (display s))) s))).
  assert (P1 : previousValue s1 = Some (parseFloat (display s)))
    by reflexivity.
  assert (O1 : operation s1 = Some op1) by reflexivity.
  rewrite (CalculatorFacts.performOperation_pending host op2 s1 _ op1
             P1 O1 Hop).
  repeat split.
Qed.

Lemma performOperation_twice_witness :
  display (performOperation example_host "×"
             (performOperation example_host "+"
                (press example_host [Num D7]))) = "14".
Proof.
  refine (proj1 (performOperation_twice example_host "+" "×"
                   (press example_host [Num D7]) _ _)).
  - reflexivity.
  - discriminate.
Defined.

(** X8. Pressing = again does nothing: after [performEquals] a second one
    leaves the state as it is and emits nothing, in any state. *)
Theorem performEquals_idempotent (host : Host) (now now' : Z) (s : State) :
  performEquals host now' (fst (performEquals host now s))
  = (fst (performEquals host now s), []).
Proof.
  unfold performEquals at 2 3.
  destruct (previousValue s) eqn:Hp.
  - destruct (truthy_str (operation s)) eqn:Ho.
    + reflexivity.
    + cbn [fst]. unfold performEquals. now rewrite Hp, Ho.
  - cbn [fst]. unfold performEquals. now rewrite Hp.
Qed.

(** X9. What a button stores is what it shows: whenever a click emits a
    record, its result is the new display, the calculator waits for an
    operand, and the same expression and result head the local history
    with the time of the click. *)
Theorem click_record (host : Host) (now : Z) (b : Button) (s : State)
  (e r : string) :
  In (SaveCalculation e r) (snd (click host now b s)) ->
  let s' := fst (click host now b s) in
  display s' = r /\
  waitingForOperand s' = true /\
  history s'
  = {| expression := e; result := r; timestamp := now |}
      :: firstn 9 (history s) /\
  snd (click host now b s) = [SaveCalculation e r].
Proof.
  destruct b; cbn [click fst snd In];
    try (intros [H | []]; discriminate H); try (intros []).
  - unfold performScientificOperation.
    destruct (scientific host (function_arg f) (angleMode s)
                (parseFloat (display s))) as [res ex | | err];
      cbn [fst snd addToHistory In].
    + intros [[= <- <-] | []]. repeat split.
    + intros [].
    + intros [H | []]. discriminate H.
  - unfold performEquals. destruct (previousValue s); [| intros []].
    destruct (truthy_str (operation s)); [| intros []].
    cbn [fst snd addToHistory In]. intros [[= <- <-] | []]. repeat split.
Qed.

Lemma click_record_witness :
  display (fst (click example_host 5 (Fn Square) (press example_host [Num D9])))
  = "81".
Proof.
  refine (proj1 (click_record example_host 5 (Fn Square)
                   (press example_host [Num D9]) "(9)²" "81" _)).
  left. reflexivity.
Defined.

End HandlerFacts.

(* ================================================================= *)
(** * What sessions keep *)

Module SessionFacts.
Import JS Calculator.

(** ** Cells a button leaves alone *)

Lemma click_memory (host : Host) (now : Z) (b : Button) (s : State) :
  writes_memory b = false -> memory (fst (click host now b s)) = memory s.
Proof.
  intros Hb. destruct b; try discriminate Hb; cbn [click fst];
    try reflexivity.
  - unfold inputNumber. now destruct (waitingForOperand s).
  - unfold inputDecimal. destruct (waitingForOperand s); [reflexivity |].
    now destruct (no_dot (display s)).
  - unfold performOperation. destruct (previousValue s); [| reflexivity].
    now destruct (truthy_str (operation s)).
  - unfold performScientificOperation.
    now destruct (scientific host (function_arg f) (angleMode s)
                    (parseFloat (display s))).
  - unfold performEquals. destruct (previousValue s); [| reflexivity].
    now destruct (truthy_str (operation s)).
Qed.

(** X10. The memory register is written by MC, MS and M+ only: a session
    without these buttons, C and CE included, ends with the memory it
    started with. *)
Theorem memory_kept (host : Host) (events : list (Z * Button)) (s : State) :
  forallb (fun e => negb (writes_memory (snd e))) events = true ->
  memory (fst (run host events s)) = memory s.
Proof.
  revert s. induction events as [| [now b] rest IH]; intros s H.
  - reflexivity.
  - cbn in H. apply andb_true_iff in H as [Hb Hr].
    apply negb_true_iff in Hb.
    specialize (IH (fst (click host now b s)) Hr).
    rewrite (click_memory host now b s Hb) in IH. cbn [run].
    destruct (click host now b s) as [s1 f1]. cbn [fst] in IH.
    now destruct (run host rest s1).
Qed.

Lemma memory_kept_witness :
  memory (fst (run example_host
                 [(0, KeyC); (1, Num D3); (2, OpKey Plus); (3, Num D4);
                  (4, Equals); (5, KeyCE); (6, KeyMR)]
                 (press example_host [Num D8; KeyMS])))
  = memory (press example_host [Num D8; KeyMS]).
Proof.
  apply (memory_kept example_host). reflexivity.
Defined.

Lemma click_staged (host : Host) (now : Z) (b : Button) (s : State) :
  writes_staged b = false ->
  previousValue (fst (click host now b s)) = previousValue s /\
  operation (fst (click host now b s)) = operation s.
Proof.
  intros Hb. destruct b; try discriminate Hb; cbn [click fst];
    try (split; reflexivity).
  - unfold inputNumber. now destruct (waitingForOperand s).
  - unfold inputDecimal. destruct (waitingForOperand s); [now split |].
    now destruct (no_dot (display s)).
  - apply CalculatorFacts.performScientificOperation_staged.
Qed.

(** X11. The staged value and the pending operator are written by the
    operator buttons, = and C only: digits, the point, CE, backspace, ±,
    the functions and the memory buttons leave both as they are, so a
    pending operation survives them. *)
Theorem staged_kept (host : Host) (events : list (Z * Button)) (s : State) :
  forallb (fun e => negb (writes_staged (snd e))) events = true ->
  previousValue (fst (run host events s)) = previousValue s /\
  operation (fst (run host events s)) = operation s.
Proof.
  revert s. induction events as [| [now b] rest IH]; intros s H.
  - now split.
  - cbn in H. apply andb_true_iff in H as [Hb Hr].
    apply negb_true_iff in Hb.
    specialize (IH (fst (click host now b s)) Hr).
    destruct (click_staged host now b s Hb) as [E1 E2].
    rewrite E1, E2 in IH. cbn [run].
    destruct (click host now b s) as [s1 f1]. cbn [fst] in IH.
    now destruct (run host rest s1).
Qed.

Lemma staged_kept_witness :
  operation (fst (run example_host
                    [(0, Num D3); (1, KeyCE); (2, Num D4); (3, Fn Square);
                     (4, PlusMinus); (5, Backspace); (6, KeyMR)]
                    (press example_host [Num D8; OpKey Times])))
  = Some "×".
Proof.
  refine (proj2 (staged_kept example_host _
                   (press example_host [Num D8; OpKey Times]) _)).
  reflexivity.
Defined.

(** ** The angle mode *)

Lemma scientific_mode (host : Host) (f : Function) (m1 m2 : AngleMode)
  (v : number) :
  reads_angleMode (Fn f) = false ->
  scientific host (function_arg f) m1 v = scientific host (function_arg f) m2 v.
Proof. destruct f; intros H; try discriminate H; reflexivity. Qed.

(** X12. The angle mode matters to sin, cos and tan only: any other button
    does the same whether the mode was toggled before it or after it. *)
Theorem click_toggleAngleMode (host : Host) (now : Z) (b : Button)
  (s : State) :
  reads_angleMode b = false ->
  click host now b (toggleAngleMode s)
  = (toggleAngleMode (fst (click host now b s)), snd (click host now b s)).
Proof.
  intros Hb. destruct b; try discriminate Hb; cbn [click fst snd];
    try reflexivity.
  - unfold inputNumber. cbn [waitingForOperand display toggleAngleMode
                             setAngleMode].
    now destruct (waitingForOperand s).
  - unfold inputDecimal. cbn [waitingForOperand display toggleAngleMode
                              setAngleMode].
    destruct (waitingForOperand s); [reflexivity |].
    now destruct (no_dot (display s)).
  - unfold performOperation.
    cbn [previousValue operation display toggleAngleMode setAngleMode].
    destruct (previousValue s); [| reflexivity].
    now destruct (truthy_str (operation s)).
  - unfold performScientificOperation.
    cbn [angleMode display toggleAngleMode setAngleMode].
    rewrite (scientific_mode host f _ (angleMode s) _ Hb).
    now destruct (scientific host (function_arg f) (angleMode s)
                    (parseFloat (display s))).
  - unfold performEquals.
    cbn [previousValue operation display toggleAngleMode setAngleMode].
    destruct (previousValue s); [| reflexivity].
    now destruct (truthy_str (operation s)).
Qed.

Lemma click_toggleAngleMode_witness :
  click example_host 0 (Fn Sqrt) (toggleAngleMode (press example_host [Num D9]))
  = (toggleAngleMode
       (fst (click example_host 0 (Fn Sqrt) (press example_host [Num D9]))),
     [SaveCalculation "√(9)" "3"]).
Proof.
  exact (click_toggleAngleMode example_host 0 (Fn Sqrt)
           (press example_host [Num D9]) eq_refl).
Defined.

(** ** Factorial of what is not a number *)

Lemma factorial_nan (depth : nat) : factorial depth nan = None.
Proof.
  induction depth as [| depth IH]; [reflexivity |].
  rewrite CalculatorFacts.factorial_step; try reflexivity.
  change (nan - one)%float with nan. now rewrite IH.
Qed.

Lemma factorial_infinity (depth : nat) : factorial depth infinity = None.
Proof.
  induction depth as [| depth IH]; [reflexivity |].
  rewrite CalculatorFacts.factorial_step; try reflexivity.
  change (infinity - one)%float with infinity. now rewrite IH.
Qed.

(** X13. When the display reads as NaN or as Infinity the [!] button
    fails: the recursion exhausts the stack whatever its depth, the
    exception leaves the handler, and nothing is set or recorded. *)
Theorem factorial_of_nan_throws (host : Host) (now : Z) (s : State) :
  parseFloat (display s) = nan \/ parseFloat (display s) = infinity ->
  click host now (Fn Factorial) s
  = (s, [Uncaught "RangeError: Maximum call stack size exceeded"]).
Proof.
  intros H. cbn [click function_arg]. unfold performScientificOperation.
  assert (E : forall mode,
             scientific host "!" mode (parseFloat (display s))
             = Throw "RangeError: Maximum call stack size exceeded").
  { intros mode.
    change (scientific host "!" mode (parseFloat (display s)))
      with (match factorial (stack_depth host)
                    (Math_floor (parseFloat (display s))) with
            | Some r => Break r (Number_toString
                                   (Math_floor (parseFloat (display s)))
                                 ++ "!")
            | None => Throw "RangeError: Maximum call stack size exceeded"
            end).
    destruct H as [-> | ->].
    - change (Math_floor nan) with nan. now rewrite factorial_nan.
    - change (Math_floor infinity) with infinity.
      now rewrite factorial_infinity. }
  now rewrite E.
Qed.

Lemma factorial_of_nan_throws_witness :
  click example_host 0 (Fn Factorial)
    (press example_host [Num D5; PlusMinus; Fn Sqrt])
  = (press example_host [Num D5; PlusMinus; Fn Sqrt],
     [Uncaught "RangeError: Maximum call stack size exceeded"]).
Proof.
  apply (factorial_of_nan_throws example_host 0
           (press example_host [Num D5; PlusMinus; Fn Sqrt])).
  left. reflexivity.
Defined.

(** ** The line above the display *)

(** X14. In every state of a session the line above the display is blank
    exactly when no operator is pending, and otherwise it is the staged
    value, a space and the operator. *)
Theorem pendingLine_shown (host : Host) (s : State) :
  reachable host s ->
  (pendingLine s = "" <-> operation s = None) /\
  (forall op, operation s = Some op ->
     exists pv, previousValue s = Some pv /\
                pendingLine s = Number_toString pv ++ " " ++ op).
Proof.
  intros Hr.
  destruct (CalculatorFacts.reachable_both_or_neither host s Hr) as [Hb Ho].
  unfold pendingLine.
  destruct (operation s) as [op |] eqn:E.
  - destruct (Ho op eq_refl) as [o ->].
    destruct (previousValue s) as [pv |] eqn:P.
    + split.
      * split; [| discriminate]. intros H. exfalso. revert H.
        destruct o; cbn; apply JSFacts.app_nonempty_r; discriminate.
      * intros op' [= <-]. exists pv. split; [reflexivity |].
        now destruct o.
    + destruct Hb as [Hb _]. specialize (Hb eq_refl). discriminate.
  - split; [now split | discriminate].
Qed.

Lemma pendingLine_shown_witness :
  exists pv,
    previousValue (press example_host [Num D7; OpKey Plus]) = Some pv /\
    pendingLine (press example_host [Num D7; OpKey Plus])
    = Number_toString pv ++ " " ++ "+".
Proof.
  refine (proj2 (pendingLine_shown example_host
                   (press example_host [Num D7; OpKey Plus]) _) "+" _).
  - apply CalculatorFacts.reachable_press.
  - reflexivity.
Defined.

End SessionFacts.

(* ================================================================= *)
(** * The two histories *)

Module HistoryFacts.
Import Calculator Convex App.
Local Open Scope list_scope.

(** ** The local list *)

Lemma firstn_app_firstn {A : Type} (n : nat) (a b : list A) :
  firstn n (a ++ firstn n b) = firstn n (a ++ b).
Proof.
  rewrite !firstn_app, firstn_firstn. do 2 f_equal. lia.
Qed.

Lemma save_pairs_app (e1 e2 : list Effect) :
  save_pairs (e1 ++ e2) = save_pairs e1 ++ save_pairs e2.
Proof. apply flat_map_app. Qed.

Lemma save_pairs_no_saves (effects : list Effect) :
  saves effects = [] -> save_pairs effects = [].
Proof.
  unfold saves, save_pairs.
  induction effects as [| e rest IH]; [reflexivity |].
  destruct e; cbn; intros H; try discriminate H; auto.
Qed.

Lemma click_history_pairs (host : Host) (now : Z) (b : Button) (s : State) :
  b <> HistoryClear ->
  (List.length (history s) <= 10)%nat ->
  map entry_pair (history (fst (Calculator.click host now b s)))
  = firstn 10 (rev (save_pairs (snd (Calculator.click host now b s)))
               ++ map entry_pair (history s)).
Proof.
  intros Hb Hs.
  destruct (CalculatorFacts.click_history host now b s)
    as [(E & _) | [(-> & Hn) | (e & r & -> & ->)]].
  - congruence.
  - rewrite (save_pairs_no_saves _ Hn). cbn [rev app].
    symmetry. apply firstn_all2. now rewrite length_map.
  - cbn [save_pairs flat_map rev app map].
    rewrite firstn_cons, firstn_map. reflexivity.
Qed.

Lemma run_history_pairs (host : Host) (events : list (Z * Button))
  (s : State) :
  ~ In HistoryClear (map snd events) ->
  (List.length (history s) <= 10)%nat ->
  map entry_pair (history (fst (Calculator.run host events s)))
  = firstn 10 (rev (save_pairs (snd (Calculator.run host events s)))
               ++ map entry_pair (history s)).
Proof.
  revert s. induction events as [| [now b] rest IH]; intros s Hc Hs.
  - cbn [Calculator.run fst snd save_pairs flat_map rev app].
    symmetry. apply firstn_all2. now rewrite length_map.
  - cbn [map snd In] in Hc.
    assert (Hb : b <> HistoryClear) by (intros ->; apply Hc; now left).
    assert (Hr : ~ In HistoryClear (map snd rest)) by tauto.
    pose proof (click_history_pairs host now b s Hb Hs) as H1.
    pose proof (CalculatorFacts.click_history_le host now b s Hs) as H2.
    specialize (IH _ Hr H2). cbn [Calculator.run].
    destruct (Calculator.click host now b s) as [s1 f1]. cbn [fst snd] in *.
    destruct (Calculator.run host rest s1) as [s2 f2]. cbn [fst snd] in *.
    rewrite IH, H1, firstn_app_firstn, save_pairs_app, rev_app_distr.
    now rewrite app_assoc.
Qed.

(** X15. After any clicks that leave the history button alone, the local
    history holds the expressions and results of the last ten completed
    calculations, newest first. *)
Theorem local_history_newest_first (host : Host)
  (events : list (Z * Button)) :
  ~ In HistoryClear (map snd events) ->
  map entry_pair (history (fst (Calculator.run host events initial)))
  = firstn 10
      (rev (save_pairs (snd (Calculator.run host events initial)))).
Proof.
  intros Hc.
  rewrite (run_history_pairs host events initial Hc) by (cbn; lia).
  cbn [history initial map]. now rewrite app_nil_r.
Qed.

Lemma local_history_newest_first_witness :
  map entry_pair
    (history (fst (Calculator.run example_host
                     [(0, Num D3); (1, Fn Square); (2, Fn Square)] initial)))
  = [("(9)²"%string, "81"%string); ("(3)²"%string, "9"%string)].
Proof.
  refine (local_history_newest_first example_host
            [(0, Num D3); (1, Fn Square); (2, Fn Square)] _).
  cbn. intuition discriminate.
Defined.

(** ** The table and the query *)

Lemma getHistory_authenticated (u : string) (t : Table) :
  u <> ""%string ->
  getHistory {| auth := Some u; db := t |} = firstn 20 (rev (by_user u t)).
Proof. intros Hu. destruct u; [congruence | reflexivity]. Qed.

(** X16. Whatever calls are made and by whom, the query of an owner
    returns the owner's 20 newest documents, newest first: with more than
    20 the oldest are left out. *)
Theorem getHistory_newest_20 (u : string) (t0 : Table)
  (cs : list (option string * string * string)) :
  u <> ""%string ->
  getHistory {| auth := Some u; db := calls cs t0 |}
  = firstn 20 (rev (docs_of u cs) ++ rev (by_user u t0)).
Proof.
  intros Hu.
  rewrite (getHistory_authenticated u _ Hu),
    (ConvexFacts.by_user_calls u cs t0 Hu).
  now rewrite rev_app_distr.
Qed.

Lemma getHistory_newest_20_witness :
  List.length
    (getHistory
       {| auth := Some "alice"%string;
          db := calls (repeat (Some "alice"%string, "e"%string, "2.7"%string)
                         25) [] |}) = 20%nat.
Proof.
  rewrite (getHistory_newest_20 "alice" []
             (repeat (Some "alice"%string, "e"%string, "2.7"%string) 25)
             ltac:(discriminate)).
  reflexivity.
Defined.

(** X17. A document saved by an owner is the first the owner's next query
    returns, followed by the 19 newest of what the query returned
    before. *)
Theorem saveCalculation_then_getHistory (u : string) (t : Table)
  (expression result : string) :
  u <> ""%string ->
  exists t',
    saveCalculation {| auth := Some u; db := t |} expression result = Done t' /\
    getHistory {| auth := Some u; db := t' |}
    = {| userId := u; expression := expression; result := result |}
        :: firstn 19 (getHistory {| auth := Some u; db := t |}).
Proof.
  intros Hu. eexists. split.
  - now apply ConvexFacts.saveCalculation_authenticated.
  - rewrite !(getHistory_authenticated u _ Hu), ConvexFacts.by_user_app.
    cbn [by_user filter userId]. rewrite String.eqb_refl, rev_app_distr.
    cbn [rev app]. rewrite firstn_cons, firstn_firstn. reflexivity.
Qed.

Lemma saveCalculation_then_getHistory_witness :
  exists t',
    saveCalculation {| auth := Some "alice"%string; db := [] |} "π" "3.14"
    = Done t' /\
    getHistory {| auth := Some "alice"%string; db := t' |}
    = [{| userId := "alice"; expression := "π"; result := "3.14" |}].
Proof.
  exact (saveCalculation_then_getHistory "alice" [] "π" "3.14"
           ltac:(discriminate)).
Defined.

Lemma in_firstn {A : Type} (n : nat) (l : list A) (x : A) :
  In x (firstn n l) -> In x l.
Proof.
  intros H. rewrite <- (firstn_skipn n l). apply in_or_app. now left.
Qed.

(** X18. The query returns documents of the caller only. *)
Theorem getHistory_own (ctx : Ctx) (d : Doc) :
  In d (getHistory ctx) -> auth ctx = Some (userId d).
Proof.
  unfold getHistory, getAuthUserId.
  destruct (auth ctx) as [[| c v] |]; try (intros []).
  unfold take, order_desc, by_user. intros H.
  apply in_firstn, in_rev, filter_In in H as [_ H].
  apply String.eqb_eq in H. now rewrite H.
Qed.

Lemma getHistory_own_witness :
  Some "alice"%string
  = Some (userId {| userId := "alice"; expression := "e"; result := "2.7" |}).
Proof.
  refine (getHistory_own
            {| auth := Some "alice"%string;
               db := [{| userId := "bob"; expression := "π";
                         result := "3.14" |};
                      {| userId := "alice"; expression := "e";
                         result := "2.7" |}] |}
            {| userId := "alice"; expression := "e"; result := "2.7" |} _).
  left. reflexivity.
Defined.

(** X19. Calls by anyone else, signed in or not, do not change what the
    query of an owner returns. *)
Theorem getHistory_others (u : string) (t : Table)
  (cs : list (option string * string * string)) :
  u <> ""%string ->
  Forall (fun c => fst (fst c) <> Some u) cs ->
  getHistory {| auth := Some u; db := calls cs t |}
  = getHistory {| auth := Some u; db := t |}.
Proof.
  intros Hu Hcs.
  rewrite !(getHistory_authenticated u _ Hu),
    (ConvexFacts.by_user_calls u cs t Hu).
  assert (E : docs_of u cs = []).
  { unfold docs_of. induction Hcs as [| [[caller e] r] cs Hc _ IH];
      [reflexivity |].
    cbn [flat_map]. rewrite IH, app_nil_r. cbn in Hc.
    destruct caller as [v |]; [| reflexivity].
    destruct (String.eqb_spec v u) as [-> | _]; [congruence | reflexivity]. }
  now rewrite E, app_nil_r.
Qed.

Lemma getHistory_others_witness :
  getHistory
    {| auth := Some "alice"%string;
       db := calls [(Some "bob"%string, "π"%string, "3.14"%string);
                    (None, "e"%string, "2.7"%string)]
                   [{| userId := "alice"; expression := "5!";
                       result := "120" |}] |}
  = getHistory
      {| auth := Some "alice"%string;
         db := [{| userId := "alice"; expression := "5!";
                   result := "120" |}] |}.
Proof.
  apply (getHistory_others "alice").
  - discriminate.
  - repeat constructor; discriminate.
Defined.

Lemma call_extends (t : Table) (c : option string * string * string) :
  exists l, call t c = t ++ l.
Proof.
  destruct c as [[caller e] r]. unfold call, saveCalculation, getAuthUserId.
  cbn [auth db]. destruct caller as [[| a v] |].
  - exists []. now rewrite app_nil_r.
  - eexists. reflexivity.
  - exists []. now rewrite app_nil_r.
Qed.

(** X20. The mutation only ever appends: after any calls the table starts
    with the documents it had, unchanged and in the same order. *)
Theorem calls_append_only (cs : list (option string * string * string))
  (t : Table) :
  firstn (List.length t) (calls cs t) = t /\
  (List.length t <= List.length (calls cs t))%nat.
Proof.
  assert (E : exists l, calls cs t = t ++ l).
  { revert t. induction cs as [| c cs IH]; intros t.
    - exists []. cbn. now rewrite app_nil_r.
    - cbn [calls fold_left]. fold (calls cs (call t c)).
      destruct (call_extends t c) as [l1 ->].
      destruct (IH (t ++ l1)) as [l2 ->].
      exists (l1 ++ l2). now rewrite app_assoc. }
  destruct E as [l ->]. split.
  - rewrite firstn_app, Nat.sub_diag, firstn_all. cbn. now rewrite app_nil_r.
  - rewrite length_app. lia.
Qed.

End HistoryFacts.

(* ================================================================= *)
(** * The component and its backend together *)

Module BackendFacts.
Import Calculator Convex App.
Local Open Scope list_scope.

Lemma by_user_saved_docs (u : string) (effects : list Effect) :
  by_user u (saved_docs u effects) = saved_docs u effects.
Proof.
  unfold by_user, saved_docs.
  induction effects as [| e rest IH]; [reflexivity |].
  destruct e; cbn [flat_map app filter userId]; try exact IH.
  now rewrite String.eqb_refl, IH.
Qed.

Lemma doc_pair_saved_docs (u : string) (effects : list Effect) :
  map doc_pair (saved_docs u effects) = save_pairs effects.
Proof.
  unfold saved_docs, save_pairs.
  induction effects as [| e rest IH]; [reflexivity |].
  destruct e; cbn [flat_map app map]; try exact IH.
  now rewrite IH.
Qed.

(** X21. For a signed-in user and a session that starts with an empty
    table and leaves the history button alone, the local history and the
    first ten documents of the query agree: the same expressions and
    results in the same order. *)
Theorem local_history_matches_query (host : Host) (u : string)
  (events : list (Z * Button)) :
  u <> ""%string ->
  ~ In HistoryClear (map snd events) ->
  let w := App.run host (Some u) events start in
  map entry_pair (history (ui w))
  = firstn 10 (map doc_pair (calculationHistory (Some u) w)).
Proof.
  intros Hu Hc w. unfold w, calculationHistory.
  rewrite AppFacts.run_ui, (AppFacts.run_table host u events start Hu).
  cbn [ui table start app].
  rewrite (HistoryFacts.run_history_pairs host events initial Hc)
    by (cbn; lia).
  cbn [history initial map]. rewrite app_nil_r.
  rewrite (HistoryFacts.getHistory_authenticated u _ Hu), by_user_saved_docs.
  rewrite <- firstn_map, firstn_firstn, map_rev, doc_pair_saved_docs.
  reflexivity.
Qed.

Lemma local_history_matches_query_witness :
  map entry_pair
    (history (ui (App.run example_host (Some "alice"%string)
                    [(0, Num D3); (1, Fn Square); (2, Fn Square)] start)))
  = firstn 10
      (map doc_pair
         (calculationHistory (Some "alice"%string)
            (App.run example_host (Some "alice"%string)
               [(0, Num D3); (1, Fn Square); (2, Fn Square)] start))).
Proof.
  refine (local_history_matches_query example_host "alice"
            [(0, Num D3); (1, Fn Square); (2, Fn Square)] _ _).
  - discriminate.
  - cbn. intuition discriminate.
Defined.

(** ** What is logged *)





End BackendFacts.
